(** * pngview: the session loop of [pngview.c]

    A shallow embedding of the run loop of [main] in [pngview/pngview.c]
    (lines 293-420), of [signalHandler] (lines 61-76) and of
    [getFileModificationTime] (lines 78-83), and the properties of the
    loop that the specification states.

    The loop is modelled as a function from the state of the variables it
    reads and writes, and from what the environment answers during one
    iteration (signals, [stat], [loadPng], [keyPressed]), to the next
    state and the list of external calls made, in program order. *)

From Stdlib Require Import ZArith List Bool Lia String.
Import ListNotations.
Open Scope Z_scope.

(** ** Machine integers *)

(** [uint32_t] arithmetic wraps modulo 2^32. *)
Definition wrap_u32 (z : Z) : Z := z mod 2 ^ 32.

(** [int32_t] arithmetic: the result is taken in two's complement, as the
    compilers of the platform produce it. *)
Definition wrap_s32 (z : Z) : Z := (z + 2 ^ 31) mod 2 ^ 32 - 2 ^ 31.

Definition in_s32 (z : Z) : Prop := - 2 ^ 31 <= z < 2 ^ 31.

(** ** Data *)

(** The signals [main] installs [signalHandler] for. *)
Inductive signal : Type :=
| SIGTSTP
| SIGINT
| SIGTERM.

(** The values fixed on the command line (lines 110-212). *)
Record config : Type := mkConfig {
  timeout : Z;            (* uint32_t timeout, -t *)
  interactive : bool;     (* -n clears it *)
  monitorChanges : bool;  (* -m sets it *)
  imagePath : string      (* argv[optind] *)
}.

(** The variables of the loop: the two globals [run] and [reload], and the
    locals of [main] that the loop updates.  [image] names the pixel
    content held in [imageLayer.image]. *)
Record state : Type := mkState {
  run : bool;
  reload : bool;
  xOffset : Z;
  yOffset : Z;
  step : Z;
  currentTime : Z;
  lastModCheckTime : Z;
  lastFileMod : Z;
  image : Z
}.

Definition set_run (b : bool) (s : state) : state :=
  mkState b (reload s) (xOffset s) (yOffset s) (step s) (currentTime s)
          (lastModCheckTime s) (lastFileMod s) (image s).

Definition set_reload (b : bool) (s : state) : state :=
  mkState (run s) b (xOffset s) (yOffset s) (step s) (currentTime s)
          (lastModCheckTime s) (lastFileMod s) (image s).

Definition set_xOffset (x : Z) (s : state) : state :=
  mkState (run s) (reload s) x (yOffset s) (step s) (currentTime s)
          (lastModCheckTime s) (lastFileMod s) (image s).

Definition set_yOffset (y : Z) (s : state) : state :=
  mkState (run s) (reload s) (xOffset s) y (step s) (currentTime s)
          (lastModCheckTime s) (lastFileMod s) (image s).

Definition set_step (n : Z) (s : state) : state :=
  mkState (run s) (reload s) (xOffset s) (yOffset s) n (currentTime s)
          (lastModCheckTime s) (lastFileMod s) (image s).

Definition set_currentTime (t : Z) (s : state) : state :=
  mkState (run s) (reload s) (xOffset s) (yOffset s) (step s) t
          (lastModCheckTime s) (lastFileMod s) (image s).

Definition set_lastModCheckTime (t : Z) (s : state) : state :=
  mkState (run s) (reload s) (xOffset s) (yOffset s) (step s) (currentTime s)
          t (lastFileMod s) (image s).

Definition set_lastFileMod (t : Z) (s : state) : state :=
  mkState (run s) (reload s) (xOffset s) (yOffset s) (step s) (currentTime s)
          (lastModCheckTime s) t (image s).

Definition set_image (i : Z) (s : state) : state :=
  mkState (run s) (reload s) (xOffset s) (yOffset s) (step s) (currentTime s)
          (lastModCheckTime s) (lastFileMod s) i.

(** What the environment does during one iteration of the loop. *)
Record tick_env : Type := mkEnv {
  (* signals handled before the loop condition of this iteration is
     evaluated; a reload signal that arrives later, up to the test of line
     314, has the same effect, and a stop signal that arrives later counts
     for the next iteration *)
  signals : list signal;
  (* signals handled while [loadPng] runs (between lines 315 and 324); the
     signals handled after line 328, up to the end of the iteration, are
     not part of the iteration's environment: in a session they are the
     [signals] of the next one, and [iteration_end] gives the flags at
     line 419 with them *)
  signals_loading : list signal;
  (* what [stat(imagePath, &attr)] finds: the modification time, or failure *)
  stat_mtime : option Z;
  (* what the uninitialised [attr.st_mtime] holds when [stat] is called *)
  attr_garbage : Z;
  (* what [loadPng] decodes at [imagePath]: an image, or failure *)
  png : option Z;
  (* [keyPressed(&c)]: [Some c] when it returns true, with the value of c *)
  keyboard : option Z
}.

(** The external calls of the loop, in the order they are made. *)
Inductive event : Type :=
| EvStat (path : string)
| EvLoadPng (path : string) (ok : bool)
| EvChangeSourceAndUpdateImageLayer (img : Z)
| EvKeyPressed
| EvUpdateStart
| EvMoveImageLayer (x y : Z)
| EvUpdateSubmitSync
| EvUsleep (usec : Z).

(** ** The code *)

(** [signalHandler], lines 61-76. *)
Definition signalHandler (signalNumber : signal) (s : state) : state :=
  match signalNumber with
  | SIGTSTP => set_reload true s
  | SIGINT | SIGTERM => set_run false s
  end.

Definition deliver (sigs : list signal) (s : state) : state :=
  fold_left (fun st sg => signalHandler sg st) sigs s.

(** [stat] writes [attr] when it succeeds and leaves it as it was when it
    fails. *)
Definition stat (found : option Z) (attr : Z) : Z :=
  match found with
  | Some mtime => mtime
  | None => attr
  end.

(** [getFileModificationTime], lines 78-83: the status that [stat] returns
    is dropped, and [attr.st_mtime] is returned in both cases. *)
Definition getFileModificationTime (env : tick_env) : Z :=
  let attr := attr_garbage env in
  let attr := stat (stat_mtime env) attr in
  attr.

(** Lines 305-312. *)
Definition check_file (cfg : config) (env : tick_env) (s : state)
  : state * list event :=
  if monitorChanges cfg
     && (1000 <=? wrap_u32 (currentTime s - lastModCheckTime s))
  then
    let s1 := set_lastModCheckTime (currentTime s) s in
    let modTime := getFileModificationTime env in
    let s2 := if lastFileMod s1 =? modTime then s1 else set_reload true s1 in
    (set_lastFileMod modTime s2, [EvStat (imagePath cfg)])
  else (s, []).

(** Modelled from the spec: [loadPng] is declared in [loadpng.h]; its body
    is not among the sources, and line 319 hands it [imageLayer.image]
    itself.  The specification has the image of the layer replaced as a
    whole by a reload and never partly changed, and has the last good image
    stay on show after a decode that failed: a [loadPng] that fails is
    taken to leave the image as it was. *)
Definition image_after_failed_loadPng (old : Z) : Z := old.

(** Lines 314-328. *)
Definition apply_reload (cfg : config) (env : tick_env) (s : state)
  : state * list event :=
  if reload s then
    let s1 := set_reload false s in
    if negb (String.eqb (imagePath cfg) "-") then
      let s2 := deliver (signals_loading env) s1 in
      match png env with
      | None =>
          (set_image (image_after_failed_loadPng (image s2)) s2,
           [EvLoadPng (imagePath cfg) false; EvUsleep (200 * 1000)])
      | Some img =>
          (set_image img (set_reload false s2),
           [EvLoadPng (imagePath cfg) true;
            EvChangeSourceAndUpdateImageLayer img])
      end
    else (s1, [])
  else (s, []).

(** [tolower] in the C locale (the program never calls [setlocale]). *)
Definition tolower (c : Z) : Z :=
  if (65 <=? c) && (c <=? 90) then c + 32 else c.

(** The [switch] of lines 336-398 on the lowered character; the boolean is
    [moveLayer]. *)
Definition switch_key (c : Z) (s : state) : state * bool :=
  if c =? 27 then (set_run false s, false)
  else if c =? 97 (* 'a' *) then
    (set_xOffset (wrap_s32 (xOffset s - step s)) s, true)
  else if c =? 100 (* 'd' *) then
    (set_xOffset (wrap_s32 (xOffset s + step s)) s, true)
  else if c =? 119 (* 'w' *) then
    (set_yOffset (wrap_s32 (yOffset s - step s)) s, true)
  else if c =? 115 (* 's' *) then
    (set_yOffset (wrap_s32 (yOffset s + step s)) s, true)
  else if c =? 43 (* '+' *) then
    (if step s =? 1 then set_step 5 s
     else if step s =? 5 then set_step 10 s
     else if step s =? 10 then set_step 20 s
     else s, false)
  else if c =? 45 (* '-' *) then
    (if step s =? 20 then set_step 10 s
     else if step s =? 10 then set_step 5 s
     else if step s =? 5 then set_step 1 s
     else s, false)
  else (s, false).

(** Lines 332-409: what is done with a character that [keyPressed] gave.
    The assertions of lines 403 and 408 are taken to hold: when
    [vc_dispmanx_update_start] returns 0 or the submit does not return 0,
    the program aborts there, and what it does is then not an iteration of
    this model. *)
Definition handle_key (c : Z) (s : state) : state * list event :=
  let c := tolower c in
  let '(s1, moveLayer) := switch_key c s in
  if moveLayer then
    (s1, [EvUpdateStart; EvMoveImageLayer (xOffset s1) (yOffset s1);
          EvUpdateSubmitSync])
  else (s1, []).

(** Lines 330-410.  [&&] does not call [keyPressed] when [interactive] is
    false. *)
Definition apply_input (cfg : config) (env : tick_env) (s : state)
  : state * list event :=
  if interactive cfg then
    match keyboard env with
    | Some c => let '(s1, tr) := handle_key c s in (s1, EvKeyPressed :: tr)
    | None => (s, [EvKeyPressed])
    end
  else (s, []).

Definition sleepMilliseconds : Z := 10.

(** Lines 414-419. *)
Definition sleep_and_timeout (cfg : config) (s : state)
  : state * list event :=
  let s1 := set_currentTime (wrap_u32 (currentTime s + sleepMilliseconds)) s in
  let s2 :=
    if negb (timeout cfg =? 0) && (timeout cfg <=? currentTime s1)
    then set_run false s1 else s1 in
  (s2, [EvUsleep (sleepMilliseconds * 1000)]).

(** One iteration of the body of [while (run)], lines 302-419. *)
Definition tick (cfg : config) (env : tick_env) (s : state)
  : state * list event :=
  let '(s1, t1) := check_file cfg env s in
  let '(s2, t2) := apply_reload cfg env s1 in
  let '(s3, t3) := apply_input cfg env s2 in
  let '(s4, t4) := sleep_and_timeout cfg s3 in
  (s4, t1 ++ t2 ++ t3 ++ t4).

(** The loop of lines 300-420 over the iterations the environment is given
    for: the result is the state when the loop is left (or when the
    environments are used up) and the calls of each iteration that ran. *)
Fixpoint session (cfg : config) (envs : list tick_env) (s : state)
  : state * list (list event) :=
  match envs with
  | [] => (s, [])
  | env :: rest =>
      let s0 := deliver (signals env) s in
      if run s0 then
        let '(s1, tr) := tick cfg env s0 in
        let '(s2, trs) := session cfg rest s1 in
        (s2, tr :: trs)
      else (s0, [])
  end.

(** The state in which the loop is entered (lines 56-57, 120, 211 and
    293-295): [x], [y] are the offsets after lines 272-280, [mtime] what
    line 211 read for a path, [img] the image loaded at startup. *)
Definition init_state (cfg : config) (x y mtime img : Z) : state :=
  mkState true false x y 1 0 0
          (if String.eqb (imagePath cfg) "-" then 0 else mtime) img.

(** The states the loop can be in: at its entry, after a signal, after an
    iteration. *)
Inductive reachable (cfg : config) : state -> Prop :=
| reach_init x y mtime img :
    in_s32 x -> in_s32 y -> reachable cfg (init_state cfg x y mtime img)
| reach_signal s sg :
    reachable cfg s -> reachable cfg (signalHandler sg s)
| reach_tick s env :
    reachable cfg s -> run s = true -> reachable cfg (fst (tick cfg env s)).

(** ** The words of the specification *)

(** The ladder of step sizes, and its rungs by index. *)
Definition ladder : list Z := [1; 5; 10; 20].

Definition rung (i : nat) : Z := nth i ladder 0.

(** The steps seen after each of a series of iterations. *)
Fixpoint steps_seen (cfg : config) (envs : list tick_env) (s : state)
  : list Z :=
  match envs with
  | [] => []
  | env :: rest =>
      let s1 := fst (tick cfg env s) in
      step s1 :: steps_seen cfg rest s1
  end.

(** The edits of the position and of the step that the keyboard asks for:
    four directional moves and the two moves along the ladder. *)
Inductive edit : Type :=
| MoveLeft
| MoveRight
| MoveUp
| MoveDown
| StepUp
| StepDown.

(** The edit a character stands for, in either case of a letter. *)
Definition edit_of_key (c : Z) : option edit :=
  let c := tolower c in
  if c =? 97 then Some MoveLeft
  else if c =? 100 then Some MoveRight
  else if c =? 119 then Some MoveUp
  else if c =? 115 then Some MoveDown
  else if c =? 43 then Some StepUp
  else if c =? 45 then Some StepDown
  else None.

Fixpoint index_of (z : Z) (l : list Z) : option nat :=
  match l with
  | [] => None
  | x :: l' => if x =? z then Some 0%nat else option_map S (index_of z l')
  end.

(** The step after an edit: one rung up or down the ladder, staying at its
    ends; the moves leave it alone. *)
Definition step_after (e : edit) (st : Z) : Z :=
  match e with
  | StepUp =>
      match index_of st ladder with
      | Some i => rung (Nat.min (S i) 3)
      | None => st
      end
  | StepDown =>
      match index_of st ladder with
      | Some i => rung (Nat.pred i)
      | None => st
      end
  | _ => st
  end.

(** The signed term of an edit, on the two axes, for the step in force. *)
Definition edit_delta (e : edit) (st : Z) : Z * Z :=
  match e with
  | MoveLeft => (- st, 0)
  | MoveRight => (st, 0)
  | MoveUp => (0, - st)
  | MoveDown => (0, st)
  | _ => (0, 0)
  end.

(** The signed sum of a sequence of edits from step [st]: each move counts
    with the step in force when it is applied. *)
Fixpoint signed_sum (st : Z) (es : list edit) : Z * Z :=
  match es with
  | [] => (0, 0)
  | e :: rest =>
      let d := edit_delta e st in
      let r := signed_sum (step_after e st) rest in
      (fst d + fst r, snd d + snd r)
  end.

(** The term and the next step that the edit of a character gives. *)
Definition delta_of (c : Z) (st : Z) : Z * Z :=
  match edit_of_key c with Some e => edit_delta e st | None => (0, 0) end.

Definition next_step_of (c : Z) (st : Z) : Z :=
  match edit_of_key c with Some e => step_after e st | None => st end.

(** The characters the keyboard gives over a series of iterations, and the
    edits they stand for. *)
Definition keys_read (envs : list tick_env) : list Z :=
  flat_map (fun env => match keyboard env with Some c => [c] | None => [] end)
           envs.

Definition edits_of (keys : list Z) : list edit :=
  flat_map (fun c => match edit_of_key c with Some e => [e] | None => [] end)
           keys.

(** The iterations that a session ran, out of those it was given. *)
Definition iterations (cfg : config) (envs : list tick_env) (s : state) : nat :=
  List.length (snd (session cfg envs s)).

(** The same environment with another answer of [keyPressed]. *)
Definition with_key (k : option Z) (env : tick_env) : tick_env :=
  mkEnv (signals env) (signals_loading env) (stat_mtime env)
        (attr_garbage env) (png env) k.

(** The environment in which the keyboard gives the lower-case form of
    what it gives in [env]. *)
Definition lower_key (env : tick_env) : tick_env :=
  with_key (option_map tolower (keyboard env)) env.

(** The calls that belong to the keyboard and to the move of the layer. *)
Definition input_event (ev : event) : bool :=
  match ev with
  | EvKeyPressed | EvUpdateStart | EvMoveImageLayer _ _ | EvUpdateSubmitSync =>
      true
  | _ => false
  end.

(** Modelled from the spec: [changeSourceAndUpdateImageLayer] is declared in
    [imageLayer.h] and its body is not among the sources.  The specification
    has a replaced content shown through one update transaction (its
    content-swap transaction); [main] hands the function no update handle,
    so that transaction is the function's own. *)
Definition changeSourceAndUpdateImageLayer_updates : nat := 1.

(** The update transactions submitted by a list of calls, when a call of
    [changeSourceAndUpdateImageLayer] submits [k] of them. *)
Definition transactions_with (k : nat) (tr : list event) : nat :=
  list_sum (map (fun ev => match ev with
                           | EvUpdateSubmitSync => 1%nat
                           | EvChangeSourceAndUpdateImageLayer _ => k
                           | _ => 0%nat
                           end) tr).

Definition transactions (tr : list event) : nat :=
  transactions_with changeSourceAndUpdateImageLayer_updates tr.

(** The moves of the layer and the swaps of its content among the calls. *)
Definition moves (tr : list event) : nat :=
  List.length (filter (fun ev => match ev with
                                 | EvMoveImageLayer _ _ => true
                                 | _ => false
                                 end) tr).

Definition content_swaps (tr : list event) : nat :=
  List.length (filter (fun ev => match ev with
                                 | EvChangeSourceAndUpdateImageLayer _ => true
                                 | _ => false
                                 end) tr).

(** The signals that ask the loop to stop. *)
Definition stop_signal (sg : signal) : bool :=
  match sg with
  | SIGTSTP => false
  | SIGINT | SIGTERM => true
  end.

(** An iteration in which nothing asks the loop to stop: no stop signal and
    no escape character. *)
Definition no_stop (env : tick_env) : bool :=
  forallb (fun sg => negb (stop_signal sg)) (signals env)
  && forallb (fun sg => negb (stop_signal sg)) (signals_loading env)
  && match keyboard env with
     | Some c => negb (tolower c =? 27)
     | None => true
     end.

(** The elapsed time that the loop has accumulated after [k] iterations, in
    the [uint32_t] it is kept in. *)
Definition elapsed (k : nat) : Z := wrap_u32 (sleepMilliseconds * Z.of_nat k).

(** Iteration [n] is the first at whose end the elapsed time is at least
    [T]. *)
Definition first_timeout (T : Z) (n : nat) : Prop :=
  (1 <= n)%nat /\ T <= elapsed n
  /\ forall m, (1 <= m < n)%nat -> elapsed m < T.

(** The decode attempts among the calls. *)
Definition loads (tr : list event) : nat :=
  List.length (filter (fun ev => match ev with
                                 | EvLoadPng _ _ => true
                                 | _ => false
                                 end) tr).

(** An iteration during which no reload signal arrives. *)
Definition no_reload_signal (env : tick_env) : bool :=
  forallb stop_signal (signals env)
  && forallb stop_signal (signals_loading env).


(** ** The loop as a sequence of ticks that begin with the clock *)

(** Line 416, for [d] milliseconds. *)
Definition advance_clock (d : Z) (s : state) : state :=
  set_currentTime (wrap_u32 (currentTime s + d)) s.

(** Lines 417-419: the timeout test. *)
Definition timeout_check (cfg : config) (s : state) : state :=
  if negb (timeout cfg =? 0) && (timeout cfg <=? currentTime s)
  then set_run false s else s.

(** Lines 302-414: the body of the loop up to its sleep. *)
Definition tick_body (cfg : config) (env : tick_env) (s : state)
  : state * list event :=
  let '(s1, t1) := check_file cfg env s in
  let '(s2, t2) := apply_reload cfg env s1 in
  let '(s3, t3) := apply_input cfg env s2 in
  (s3, t1 ++ t2 ++ t3 ++ [EvUsleep (sleepMilliseconds * 1000)]).

(** The tick of the specification, which begins where the elapsed time is
    advanced: lines 416-419 for the [d] milliseconds slept, then the
    condition of the loop (line 300, with the signals handled before it),
    then lines 302-414.  The calls are [None] when the condition of the
    loop ends the tick before any of them. *)
Definition spec_tick (cfg : config) (env : tick_env) (d : Z) (s : state)
  : state * option (list event) :=
  let s1 := timeout_check cfg (advance_clock d s) in
  let s2 := deliver (signals env) s1 in
  if run s2 then
    let '(s3, tr) := tick_body cfg env s2 in (s3, Some tr)
  else (s2, None).

(** The loop as a sequence of such ticks, from a state [s] in which [d]
    milliseconds have been slept and not yet counted; when the environments
    are used up, the loop is after line 419. *)
Fixpoint spec_run (cfg : config) (envs : list tick_env) (d : Z) (s : state)
  : state * list (list event) :=
  match envs with
  | [] => (timeout_check cfg (advance_clock d s), [])
  | env :: rest =>
      match spec_tick cfg env d s with
      | (s', Some tr) =>
          let '(s'', trs) := spec_run cfg rest sleepMilliseconds s' in
          (s'', tr :: trs)
      | (s', None) => (s', [])
      end
  end.




(** ** The sentences of the specification that the code does not follow,
    as they are written *)


(** "Querying a nonexistent path returns a sentinel/failure value
    distinguishable from any real timestamp." *)
Definition spec_failed_query_is_distinguishable : Prop :=
  forall env env' mtime,
    stat_mtime env = None -> stat_mtime env' = Some mtime ->
    getFileModificationTime env <> getFileModificationTime env'.

(** "The controller treats query failure as no change." *)
Definition spec_failed_query_is_no_change : Prop :=
  forall cfg env s,
    stat_mtime env = None ->
    reload (fst (check_file cfg env s)) = reload s.

(** "Standard-input source disables both reload-by-signal and file-change
    monitoring: neither ever sets reloadPending for that session." *)
Definition spec_stdin_never_sets_reload : Prop :=
  forall cfg,
    imagePath cfg = "-"%string ->
    (forall s, reload (signalHandler SIGTSTP s) = reload s)
    /\ (forall env s, reload (fst (check_file cfg env s)) = reload s).

(** "If timeoutMs = T > 0, the loop's running flag becomes false at the
    first tick where accumulated elapsed time >= T", for every [T] that
    the 32 bits of [timeoutMs] hold and with 10 ms accumulated per tick:
    at a tick by which the accumulated time has reached [T], the flag is
    false. *)
Definition spec_timeout_every_T : Prop :=
  forall cfg envs x y mtime img n,
    Forall (fun env => no_stop env = true) envs ->
    0 < timeout cfg < 2 ^ 32 ->
    timeout cfg <= sleepMilliseconds * Z.of_nat n ->
    (n <= List.length envs)%nat ->
    run (fst (session cfg (firstn n envs) (init_state cfg x y mtime img)))
    = false.

(** "For all sequences of directional-move events, final position equals
    initial position plus the signed sum of each event's step at the time
    it was applied", the sum read as that of the integers. *)
Definition spec_position_plain_sum : Prop :=
  forall cfg envs s,
    reachable cfg s ->
    interactive cfg = true ->
    let s' := fst (session cfg envs s) in
    let applied :=
      edits_of (keys_read (firstn (iterations cfg envs s) envs)) in
    let d := signed_sum (step s) applied in
    xOffset s' = xOffset s + fst d /\ yOffset s' = yOffset s + snd d.

(** ** Further words for the loop *)

(** The time since the file was last checked, as line 305 computes it. *)
Definition since_check (s : state) : Z :=
  wrap_u32 (currentTime s - lastModCheckTime s).

(** The queries of the modification time among the calls. *)
Definition polls (tr : list event) : nat :=
  List.length (filter (fun ev => match ev with
                                 | EvStat _ => true
                                 | _ => false
                                 end) tr).

(** The iterations (counted from 0) in which the file is due to be checked:
    every hundredth one, the first apart. *)
Definition poll_due (k : nat) : bool :=
  (0 <? k)%nat && (k mod 100 =? 0)%nat.

(** The microseconds slept by the calls. *)
Definition slept (tr : list event) : Z :=
  fold_right (fun ev acc => match ev with
                            | EvUsleep usec => usec + acc
                            | _ => acc
                            end) 0 tr.

(** The decode attempts that failed among the calls. *)
Definition failed_loads (tr : list event) : nat :=
  List.length (filter (fun ev => match ev with
                                 | EvLoadPng _ false => true
                                 | _ => false
                                 end) tr).

(** The flags where an iteration ends (line 419), when the signals [late]
    were handled in it at the points that [tick_env] leaves out: a stop
    signal anywhere outside the decode, a reload signal after line 324
    (during [keyPressed], the update of a move or the sleep).  The handler
    only sets a flag, and nothing after line 328 reads or clears [reload],
    and nothing in the body sets [run] to true. *)
Definition iteration_end (cfg : config) (env : tick_env) (late : list signal)
           (s : state) : state :=
  deliver late (fst (tick cfg env s)).

(** The signal that asks for a reload. *)
Definition reload_signal (sg : signal) : bool :=
  match sg with
  | SIGTSTP => true
  | SIGINT | SIGTERM => false
  end.

(** The escape character on the keyboard. *)
Definition escape_key (env : tick_env) : bool :=
  match keyboard env with
  | Some c => tolower c =? 27
  | None => false
  end.

(** The timeout test of line 417 on the time after the sleep. *)
Definition timeout_fires (cfg : config) (s : state) : bool :=
  negb (timeout cfg =? 0)
  && (timeout cfg <=? wrap_u32 (currentTime s + sleepMilliseconds)).

(** The request that the reload part of an iteration sees: the flag, or a
    modification time that the check of the file found changed. *)
Definition reload_seen (cfg : config) (env : tick_env) (s : state) : bool :=
  reload s
  || (monitorChanges cfg && (1000 <=? since_check s)
      && negb (lastFileMod s =? getFileModificationTime env)).

(** ** The command line and the run of [main] *)

(** The values that the options set (lines 110-119). *)
Record options : Type := mkOptions {
  opt_background : Z;        (* uint16_t background *)
  opt_layer : Z;             (* int32_t layer *)
  opt_displayNumber : Z;     (* uint32_t displayNumber *)
  opt_xOffset : Z;           (* int32_t xOffset *)
  opt_yOffset : Z;           (* int32_t yOffset *)
  opt_timeout : Z;           (* uint32_t timeout *)
  opt_xOffsetSet : bool;
  opt_yOffsetSet : bool;
  opt_interactive : bool;
  opt_monitorChanges : bool
}.

(** Lines 110-119: the values before any option is read. *)
Definition default_options : options :=
  mkOptions 15 1 0 0 0 0 false false true false.

(** One case of the [switch] of lines 130-178, for the character [opt]
    that [getopt] returned and the number [n] that [strtol] or [atoi] made
    of its argument; the number is converted to the type of the variable
    it is stored in.  [None] is the default case: [usage] is called, which
    exits. *)
Definition apply_option (opt n : Z) (o : options) : option options :=
  if opt =? 98 (* 'b' *) then
    Some (mkOptions (n mod 2 ^ 16) (opt_layer o) (opt_displayNumber o)
                    (opt_xOffset o) (opt_yOffset o) (opt_timeout o)
                    (opt_xOffsetSet o) (opt_yOffsetSet o)
                    (opt_interactive o) (opt_monitorChanges o))
  else if opt =? 100 (* 'd' *) then
    Some (mkOptions (opt_background o) (opt_layer o) (wrap_u32 n)
                    (opt_xOffset o) (opt_yOffset o) (opt_timeout o)
                    (opt_xOffsetSet o) (opt_yOffsetSet o)
                    (opt_interactive o) (opt_monitorChanges o))
  else if opt =? 108 (* 'l' *) then
    Some (mkOptions (opt_background o) (wrap_s32 n) (opt_displayNumber o)
                    (opt_xOffset o) (opt_yOffset o) (opt_timeout o)
                    (opt_xOffsetSet o) (opt_yOffsetSet o)
                    (opt_interactive o) (opt_monitorChanges o))
  else if opt =? 120 (* 'x' *) then
    Some (mkOptions (opt_background o) (opt_layer o) (opt_displayNumber o)
                    (wrap_s32 n) (opt_yOffset o) (opt_timeout o)
                    true (opt_yOffsetSet o)
                    (opt_interactive o) (opt_monitorChanges o))
  else if opt =? 121 (* 'y' *) then
    Some (mkOptions (opt_background o) (opt_layer o) (opt_displayNumber o)
                    (opt_xOffset o) (wrap_s32 n) (opt_timeout o)
                    (opt_xOffsetSet o) true
                    (opt_interactive o) (opt_monitorChanges o))
  else if opt =? 116 (* 't' *) then
    Some (mkOptions (opt_background o) (opt_layer o) (opt_displayNumber o)
                    (opt_xOffset o) (opt_yOffset o) (wrap_u32 n)
                    (opt_xOffsetSet o) (opt_yOffsetSet o)
                    (opt_interactive o) (opt_monitorChanges o))
  else if opt =? 110 (* 'n' *) then
    Some (mkOptions (opt_background o) (opt_layer o) (opt_displayNumber o)
                    (opt_xOffset o) (opt_yOffset o) (opt_timeout o)
                    (opt_xOffsetSet o) (opt_yOffsetSet o)
                    false (opt_monitorChanges o))
  else if opt =? 109 (* 'm' *) then
    Some (mkOptions (opt_background o) (opt_layer o) (opt_displayNumber o)
                    (opt_xOffset o) (opt_yOffset o) (opt_timeout o)
                    (opt_xOffsetSet o) (opt_yOffsetSet o)
                    (opt_interactive o) true)
  else None.

(** The loop of lines 128-179 over what [getopt] returns, one pair of a
    character and the number of its argument for each option found. *)
Fixpoint parse_options (items : list (Z * Z)) (o : options)
  : option options :=
  match items with
  | [] => Some o
  | (opt, n) :: rest =>
      match apply_option opt n o with
      | Some o' => parse_options rest o'
      | None => None
      end
  end.

(** The option characters of the string given to [getopt]. *)
Definition accepted_option (opt : Z) : bool :=
  existsb (Z.eqb opt) [98; 100; 108; 120; 121; 116; 110; 109].

(** The number given with the last occurrence of an option. *)
Definition last_number (opt : Z) (items : list (Z * Z)) : option Z :=
  fold_left (fun acc it => if fst it =? opt then Some (snd it) else acc)
            items None.

(** Whether an option occurs. *)
Definition given (opt : Z) (items : list (Z * Z)) : bool :=
  existsb (fun it => fst it =? opt) items.

(** What the environment answers to the calls of [main] outside the loop. *)
Record startup_env : Type := mkStartup {
  (* whether NDEBUG was defined when <assert.h> was included; line 48
     defines it after the header, where it no longer matters *)
  ndebug : bool;
  (* [loadPng] or [loadPngFile]: the image with its width and height *)
  startup_png : option (Z * Z * Z);
  (* [stat] at line 211, and what its buffer held *)
  startup_stat : option Z;
  startup_attr : Z;
  (* whether [signal] returns SIG_ERR for a signal *)
  signal_fails : signal -> bool;
  (* what [vc_dispmanx_display_open] returns *)
  display_handle : Z;
  (* what [vc_dispmanx_display_get_info] returns and stores *)
  get_info_result : Z;
  info_width : Z;
  info_height : Z;
  (* what [vc_dispmanx_update_start] and [vc_dispmanx_update_submit_sync]
     return at lines 264 and 288 *)
  startup_update : Z;
  startup_submit : Z;
  (* what [vc_dispmanx_display_close] returns *)
  close_result : Z
}.

(** The calls of [main], in the order they are made; [CLoop] holds the
    calls of one iteration of the loop. *)
Inductive call : Type :=
| CUsage
| CLoadPngFile
| CLoadPng (path : string)
| CUnableToLoad (path : string)
| CStat (path : string)
| CSignal (sg : signal)
| CPerror (sg : signal)
| CBcmHostInit
| CDisplayOpen (displayNumber : Z)
| CDisplayGetInfo
| CInitBackgroundLayer (colour : Z) (layer : Z)
| CCreateResourceImageLayer (layer : Z)
| CUpdateStart
| CAddElementBackgroundLayer
| CAddElementImageLayerOffset (x y : Z)
| CUpdateSubmitSync
| CLoop (tr : list event)
| CKeyboardReset
| CDestroyBackgroundLayer
| CDestroyImageLayer
| CDisplayClose.

(** How a run ends: with an exit status, in [abort] after a failed
    assertion, or not within the iterations given. *)
Inductive outcome : Type :=
| Exit (status : Z)
| Abort
| Running.

Definition EXIT_FAILURE : Z := 1.

(** [assert (ok)]: true when the assertion is compiled in and fails. *)
Definition assert_fails (st : startup_env) (ok : bool) : bool :=
  negb (ndebug st) && negb ok.

(** Lines 272-280: the offset that centres an image of extent [size] on a
    display of extent [extent].  Both are [int32_t] ([info.width] of
    DISPMANX_MODEINFO_T, [image.width] of IMAGE_T), and the division of C
    truncates. *)
Definition centred (extent size : Z) : Z :=
  wrap_s32 (Z.quot (wrap_s32 (extent - size)) 2).

(** [main], lines 108-443, for the options that [getopt] finds, the first
    argument after them if there is one, and the environment. *)
Definition main (items : list (Z * Z)) (file : option string)
           (st : startup_env) (envs : list tick_env)
  : outcome * list call :=
  match parse_options items default_options with
  | None => (Exit EXIT_FAILURE, [CUsage])
  | Some o =>
  match file with
  | None => (Exit EXIT_FAILURE, [CUsage])
  | Some path =>
  let from_stdin := String.eqb path "-" in
  let load := if from_stdin then CLoadPngFile else CLoadPng path in
  match startup_png st with
  | None => (Exit EXIT_FAILURE, [load; CUnableToLoad path])
  | Some (img, width, height) =>
  let t0 := load :: (if from_stdin then [] else [CStat path]) in
  let mtime := stat (startup_stat st) (startup_attr st) in
  if signal_fails st SIGTSTP then
    (Exit EXIT_FAILURE, t0 ++ [CSignal SIGTSTP; CPerror SIGTSTP])
  else if signal_fails st SIGINT then
    (Exit EXIT_FAILURE,
     t0 ++ [CSignal SIGTSTP; CSignal SIGINT; CPerror SIGINT])
  else if signal_fails st SIGTERM then
    (Exit EXIT_FAILURE,
     t0 ++ [CSignal SIGTSTP; CSignal SIGINT; CSignal SIGTERM;
            CPerror SIGTERM])
  else
  let t1 := t0 ++ [CSignal SIGTSTP; CSignal SIGINT; CSignal SIGTERM;
                   CBcmHostInit; CDisplayOpen (opt_displayNumber o)] in
  if assert_fails st (negb (display_handle st =? 0)) then (Abort, t1) else
  let t2 := t1 ++ [CDisplayGetInfo] in
  if assert_fails st (get_info_result st =? 0) then (Abort, t2) else
  let with_background := 0 <? opt_background o in
  let t3 := t2
            ++ (if with_background
                then [CInitBackgroundLayer (opt_background o) 0] else [])
            ++ [CCreateResourceImageLayer (opt_layer o); CUpdateStart] in
  if assert_fails st (negb (startup_update st =? 0)) then (Abort, t3) else
  let x := if opt_xOffsetSet o then opt_xOffset o
           else centred (info_width st) width in
  let y := if opt_yOffsetSet o then opt_yOffset o
           else centred (info_height st) height in
  let t4 := t3
            ++ (if with_background then [CAddElementBackgroundLayer] else [])
            ++ [CAddElementImageLayerOffset x y; CUpdateSubmitSync] in
  if assert_fails st (startup_submit st =? 0) then (Abort, t4) else
  let cfg := mkConfig (opt_timeout o) (opt_interactive o)
                      (opt_monitorChanges o) path in
  let r := session cfg envs (init_state cfg x y mtime img) in
  let t5 := t4 ++ map CLoop (snd r) in
  if run (fst r) then (Running, t5) else
  let t6 := t5 ++ [CKeyboardReset]
            ++ (if with_background then [CDestroyBackgroundLayer] else [])
            ++ [CDestroyImageLayer; CDisplayClose] in
  if assert_fails st (close_result st =? 0) then (Abort, t6) else
  (Exit 0, t6)
  end end end.


(** The calls that reach the compositor. *)
Definition display_call (c : call) : bool :=
  match c with
  | CBcmHostInit | CDisplayOpen _ | CDisplayGetInfo
  | CInitBackgroundLayer _ _ | CCreateResourceImageLayer _ | CUpdateStart
  | CAddElementBackgroundLayer | CAddElementImageLayerOffset _ _
  | CUpdateSubmitSync | CLoop _ | CDestroyBackgroundLayer
  | CDestroyImageLayer | CDisplayClose => true
  | _ => false
  end.

(** How many of the calls satisfy [p]. *)
Definition count (p : call -> bool) (calls : list call) : nat :=
  List.length (filter p calls).

Definition is_init_background (c : call) : bool :=
  match c with CInitBackgroundLayer _ _ => true | _ => false end.

Definition is_add_background (c : call) : bool :=
  match c with CAddElementBackgroundLayer => true | _ => false end.

Definition is_destroy_background (c : call) : bool :=
  match c with CDestroyBackgroundLayer => true | _ => false end.

Definition is_create_image (c : call) : bool :=
  match c with CCreateResourceImageLayer _ => true | _ => false end.

Definition is_destroy_image (c : call) : bool :=
  match c with CDestroyImageLayer => true | _ => false end.

Definition is_keyboard_reset (c : call) : bool :=
  match c with CKeyboardReset => true | _ => false end.

Definition is_load_path (c : call) : bool :=
  match c with CLoadPng _ => true | _ => false end.

Definition is_load_stdin (c : call) : bool :=
  match c with CLoadPngFile => true | _ => false end.

Definition is_stat (c : call) : bool :=
  match c with CStat _ => true | _ => false end.

(** The calls of the iterations of the loop among the calls of [main]. *)
Definition loop_calls (calls : list call) : list (list event) :=
  flat_map (fun c => match c with CLoop tr => [tr] | _ => [] end) calls.

(** ** The model on small inputs *)

Example tolower_values :
  tolower 65 = 97 /\ tolower 90 = 122 /\ tolower 97 = 97
  /\ tolower 43 = 43 /\ tolower 27 = 27 /\ tolower (-1) = -1.
Proof. repeat split. Qed.

Example wrap_values :
  wrap_u32 (4294967290 + 10) = 4
  /\ wrap_u32 (0 - 10) = 4294967286
  /\ wrap_s32 (2147483647 + 1) = -2147483648
  /\ wrap_s32 (-5) = -5.
Proof. repeat split. Qed.

(** Two iterations: a reload by signal with 'D' on the keyboard, then an
    escape. *)
Example session_two_iterations :
  let cfg := mkConfig 0 true false "image.png" in
  session cfg
          [mkEnv [SIGTSTP] [] None 0 (Some 2) (Some 68);
           mkEnv [] [] None 0 None (Some 27);
           mkEnv [] [] None 0 None (Some 68)]
          (init_state cfg 10 20 0 1)
  = (mkState false false 11 20 1 20 0 0 2,
     [[EvLoadPng "image.png" true; EvChangeSourceAndUpdateImageLayer 2;
       EvKeyPressed; EvUpdateStart; EvMoveImageLayer 11 20;
       EvUpdateSubmitSync; EvUsleep 10000];
      [EvKeyPressed; EvUsleep 10000]]).
Proof. reflexivity. Qed.

(** ** Frame lemmas: what each part of an iteration leaves alone *)

Ltac frame := cbn; repeat split; auto.

Lemma signalHandler_frame (sg : signal) (s : state) :
  xOffset (signalHandler sg s) = xOffset s
  /\ yOffset (signalHandler sg s) = yOffset s
  /\ step (signalHandler sg s) = step s
  /\ image (signalHandler sg s) = image s
  /\ currentTime (signalHandler sg s) = currentTime s.
Proof. destruct sg; frame. Qed.

Lemma deliver_frame (sigs : list signal) (s : state) :
  xOffset (deliver sigs s) = xOffset s
  /\ yOffset (deliver sigs s) = yOffset s
  /\ step (deliver sigs s) = step s
  /\ image (deliver sigs s) = image s
  /\ currentTime (deliver sigs s) = currentTime s.
Proof.
  revert s. induction sigs as [|sg sigs IH]; intro s; cbn.
  - auto.
  - destruct (IH (signalHandler sg s)) as (Hx & Hy & Hs & Hi & Hc).
    destruct (signalHandler_frame sg s) as (Hx' & Hy' & Hs' & Hi' & Hc').
    unfold deliver in *. repeat split; congruence.
Qed.

Lemma check_file_frame (cfg : config) (env : tick_env) (s : state) :
  xOffset (fst (check_file cfg env s)) = xOffset s
  /\ yOffset (fst (check_file cfg env s)) = yOffset s
  /\ step (fst (check_file cfg env s)) = step s
  /\ image (fst (check_file cfg env s)) = image s
  /\ currentTime (fst (check_file cfg env s)) = currentTime s
  /\ run (fst (check_file cfg env s)) = run s.
Proof.
  unfold check_file.
  destruct (monitorChanges cfg && _); cbn [fst]; [|frame].
  destruct (lastFileMod _ =? _); frame.
Qed.

Lemma apply_reload_frame (cfg : config) (env : tick_env) (s : state) :
  xOffset (fst (apply_reload cfg env s)) = xOffset s
  /\ yOffset (fst (apply_reload cfg env s)) = yOffset s
  /\ step (fst (apply_reload cfg env s)) = step s
  /\ currentTime (fst (apply_reload cfg env s)) = currentTime s.
Proof.
  unfold apply_reload.
  destruct (reload s); [|frame].
  destruct (negb _); [|frame].
  destruct (deliver_frame (signals_loading env) (set_reload false s))
    as (Hx & Hy & Hs & _ & Hc).
  destruct (png env); frame.
Qed.

Lemma sleep_and_timeout_frame (cfg : config) (s : state) :
  xOffset (fst (sleep_and_timeout cfg s)) = xOffset s
  /\ yOffset (fst (sleep_and_timeout cfg s)) = yOffset s
  /\ step (fst (sleep_and_timeout cfg s)) = step s
  /\ image (fst (sleep_and_timeout cfg s)) = image s
  /\ reload (fst (sleep_and_timeout cfg s)) = reload s.
Proof.
  unfold sleep_and_timeout. cbn.
  destruct (negb _ && _); frame.
Qed.

(** The state and the calls of an iteration, part by part. *)
Lemma tick_unfold (cfg : config) (env : tick_env) (s : state) :
  let r1 := check_file cfg env s in
  let r2 := apply_reload cfg env (fst r1) in
  let r3 := apply_input cfg env (fst r2) in
  let r4 := sleep_and_timeout cfg (fst r3) in
  tick cfg env s = (fst r4, snd r1 ++ snd r2 ++ snd r3 ++ snd r4).
Proof.
  cbv zeta. unfold tick.
  destruct (check_file cfg env s) as [s1 t1]. cbn [fst snd].
  destruct (apply_reload cfg env s1) as [s2 t2]. cbn [fst snd].
  destruct (apply_input cfg env s2) as [s3 t3]. cbn [fst snd].
  destruct (sleep_and_timeout cfg s3) as [s4 t4]. reflexivity.
Qed.

(** The position and the step after an iteration are those that the input
    part produced from the ones before it. *)
Lemma tick_input_view (cfg : config) (env : tick_env) (s : state) :
  exists s2,
    xOffset s2 = xOffset s /\ yOffset s2 = yOffset s /\ step s2 = step s
    /\ xOffset (fst (tick cfg env s)) = xOffset (fst (apply_input cfg env s2))
    /\ yOffset (fst (tick cfg env s)) = yOffset (fst (apply_input cfg env s2))
    /\ step (fst (tick cfg env s)) = step (fst (apply_input cfg env s2)).
Proof.
  rewrite tick_unfold. cbn [fst].
  set (s1 := fst (check_file cfg env s)).
  set (s2 := fst (apply_reload cfg env s1)).
  exists s2.
  destruct (check_file_frame cfg env s) as (Hx1 & Hy1 & Hs1 & _).
  destruct (apply_reload_frame cfg env s1) as (Hx2 & Hy2 & Hs2 & _).
  destruct (sleep_and_timeout_frame cfg (fst (apply_input cfg env s2)))
    as (Hx4 & Hy4 & Hs4 & _).
  fold s1 in Hx1, Hy1, Hs1. fold s2 in Hx2, Hy2, Hs2.
  repeat split; congruence.
Qed.

(** ** The step ladder *)

Lemma handle_key_fst (c : Z) (s : state) :
  fst (handle_key c s) = fst (switch_key (tolower c) s).
Proof.
  unfold handle_key. destruct (switch_key (tolower c) s) as [s1 [|]]; reflexivity.
Qed.

Lemma switch_key_ladder (c : Z) (s : state) :
  In (step s) ladder -> In (step (fst (switch_key c s))) ladder.
Proof.
  intro H. unfold switch_key.
  repeat match goal with
         | |- context [if ?b then _ else _] => destruct b
         end; cbn; auto 6.
Qed.

Lemma apply_input_ladder (cfg : config) (env : tick_env) (s : state) :
  In (step s) ladder -> In (step (fst (apply_input cfg env s))) ladder.
Proof.
  intro H. unfold apply_input.
  destruct (interactive cfg); [|exact H].
  destruct (keyboard env) as [c|]; [|exact H].
  pose proof (handle_key_fst c s) as E.
  destruct (handle_key c s) as [s1 tr]. cbn [fst] in *. subst s1.
  now apply switch_key_ladder.
Qed.

Lemma reachable_ladder (cfg : config) (s : state) :
  reachable cfg s -> In (step s) ladder.
Proof.
  induction 1 as [x y mtime img Hx Hy | s sg Hs IH | s env Hs IH Hrun].
  - cbn. auto.
  - destruct (signalHandler_frame sg s) as (_ & _ & E & _). now rewrite E.
  - destruct (tick_input_view cfg env s) as (s2 & _ & _ & E2 & _ & _ & E).
    rewrite E. apply apply_input_ladder. now rewrite E2.
Qed.

Lemma ladder_rung (z : Z) :
  In z ladder -> exists i, (i < 4)%nat /\ z = rung i.
Proof.
  cbn. intros [H | [H | [H | [H | []]]]]; subst z.
  - exists 0%nat. split; [lia | reflexivity].
  - exists 1%nat. split; [lia | reflexivity].
  - exists 2%nat. split; [lia | reflexivity].
  - exists 3%nat. split; [lia | reflexivity].
Qed.

(** A '+' (43) goes one rung up and a '-' (45) one rung down, staying at
    the ends. *)
Lemma switch_key_plus (i : nat) (s : state) :
  (i < 4)%nat -> step s = rung i ->
  step (fst (switch_key 43 s)) = rung (Nat.min (S i) 3).
Proof.
  intros Hi E. unfold switch_key. cbn [Z.eqb Pos.eqb fst].
  rewrite E.
  destruct i as [|[|[|[|i]]]]; try lia; cbn; try reflexivity; exact E.
Qed.

Lemma switch_key_minus (i : nat) (s : state) :
  (i < 4)%nat -> step s = rung i ->
  step (fst (switch_key 45 s)) = rung (Nat.pred i).
Proof.
  intros Hi E. unfold switch_key. cbn [Z.eqb Pos.eqb fst].
  rewrite E.
  destruct i as [|[|[|[|i]]]]; try lia; cbn; try reflexivity; exact E.
Qed.

Lemma tick_step_key (cfg : config) (env : tick_env) (s : state) (c : Z) :
  interactive cfg = true -> keyboard env = Some c ->
  exists s2, step s2 = step s
    /\ step (fst (tick cfg env s)) = step (fst (switch_key (tolower c) s2)).
Proof.
  intros Hi Hk.
  destruct (tick_input_view cfg env s) as (s2 & _ & _ & E2 & _ & _ & E).
  exists s2. split; [exact E2|].
  rewrite E. unfold apply_input. rewrite Hi, Hk.
  pose proof (handle_key_fst c s2) as F.
  destruct (handle_key c s2) as [s3 tr]. cbn [fst] in *. now subst s3.
Qed.

Lemma tick_plus (cfg : config) (env : tick_env) (s : state) (i : nat) :
  interactive cfg = true -> keyboard env = Some 43 ->
  (i < 4)%nat -> step s = rung i ->
  step (fst (tick cfg env s)) = rung (Nat.min (S i) 3).
Proof.
  intros Hi Hk Hlt E.
  destruct (tick_step_key cfg env s 43 Hi Hk) as (s2 & E2 & ->).
  change (tolower 43) with 43. apply switch_key_plus; congruence.
Qed.

Lemma tick_minus (cfg : config) (env : tick_env) (s : state) (i : nat) :
  interactive cfg = true -> keyboard env = Some 45 ->
  (i < 4)%nat -> step s = rung i ->
  step (fst (tick cfg env s)) = rung (Nat.pred i).
Proof.
  intros Hi Hk Hlt E.
  destruct (tick_step_key cfg env s 45 Hi Hk) as (s2 & E2 & ->).
  change (tolower 45) with 45. apply switch_key_minus; congruence.
Qed.

(** C6.  In every reachable state of the loop [step] is one of 1, 5, 10,
    20, say rung [i] of the ladder; an iteration that reads '+' leaves it
    on rung [min (i+1) 3] and one that reads '-' on rung [i-1] (rung 0
    from rung 0): one rung per keypress, no move past the ends.  From
    [step = 1], four iterations that each read '+' show the steps
    5, 10, 20, 20. *)
Theorem C6_step_ladder (cfg : config) (s : state) (Hs : reachable cfg s) :
  In (step s) ladder
  /\ (exists i, (i < 4)%nat /\ step s = rung i
      /\ (forall env, interactive cfg = true -> keyboard env = Some 43 ->
            step (fst (tick cfg env s)) = rung (Nat.min (S i) 3))
      /\ (forall env, interactive cfg = true -> keyboard env = Some 45 ->
            step (fst (tick cfg env s)) = rung (Nat.pred i)))
  /\ (forall e1 e2 e3 e4,
        interactive cfg = true -> step s = 1 ->
        keyboard e1 = Some 43 -> keyboard e2 = Some 43 ->
        keyboard e3 = Some 43 -> keyboard e4 = Some 43 ->
        steps_seen cfg [e1; e2; e3; e4] s = [5; 10; 20; 20]).
Proof.
  pose proof (reachable_ladder cfg s Hs) as HL.
  split; [exact HL|]. split.
  - destruct (ladder_rung _ HL) as (i & Hi & E).
    exists i. repeat split; auto.
    + intros env H1 H2. now apply tick_plus.
    + intros env H1 H2. now apply tick_minus.
  - intros e1 e2 e3 e4 Hi E K1 K2 K3 K4. cbn [steps_seen].
    pose proof (tick_plus cfg e1 s 0 Hi K1 ltac:(lia) E) as E1.
    pose proof (tick_plus cfg e2 _ 1 Hi K2 ltac:(lia) E1) as E2.
    pose proof (tick_plus cfg e3 _ 2 Hi K3 ltac:(lia) E2) as E3.
    pose proof (tick_plus cfg e4 _ 3 Hi K4 ltac:(lia) E3) as E4.
    rewrite E1, E2, E3, E4. reflexivity.
Qed.

(** ** Position *)

Lemma wrap_s32_range (z : Z) : in_s32 (wrap_s32 z).
Proof.
  unfold in_s32, wrap_s32.
  pose proof (Z.mod_pos_bound (z + 2 ^ 31) (2 ^ 32) ltac:(lia)). lia.
Qed.

Lemma wrap_s32_id (z : Z) : in_s32 z -> wrap_s32 z = z.
Proof.
  unfold in_s32, wrap_s32. intro H.
  rewrite Z.mod_small; lia.
Qed.

Lemma wrap_s32_add (a b : Z) : wrap_s32 (wrap_s32 a + b) = wrap_s32 (a + b).
Proof.
  unfold wrap_s32. f_equal.
  replace ((a + 2 ^ 31) mod 2 ^ 32 - 2 ^ 31 + b + 2 ^ 31)
    with ((a + 2 ^ 31) mod 2 ^ 32 + b) by lia.
  rewrite Zplus_mod_idemp_l. f_equal. lia.
Qed.

Lemma switch_key_s32 (c : Z) (s : state) :
  in_s32 (xOffset s) -> in_s32 (yOffset s) ->
  in_s32 (xOffset (fst (switch_key c s)))
  /\ in_s32 (yOffset (fst (switch_key c s))).
Proof.
  intros Hx Hy. unfold switch_key.
  repeat match goal with
         | |- context [if ?b then _ else _] => destruct b
         end; cbn; auto using wrap_s32_range.
Qed.

Lemma apply_input_s32 (cfg : config) (env : tick_env) (s : state) :
  in_s32 (xOffset s) -> in_s32 (yOffset s) ->
  in_s32 (xOffset (fst (apply_input cfg env s)))
  /\ in_s32 (yOffset (fst (apply_input cfg env s))).
Proof.
  intros Hx Hy. unfold apply_input.
  destruct (interactive cfg); [|now split].
  destruct (keyboard env) as [c|]; [|now split].
  pose proof (handle_key_fst c s) as E.
  destruct (handle_key c s) as [s1 tr]. cbn [fst] in *. subst s1.
  now apply switch_key_s32.
Qed.

Lemma reachable_s32 (cfg : config) (s : state) :
  reachable cfg s -> in_s32 (xOffset s) /\ in_s32 (yOffset s).
Proof.
  induction 1 as [x y mtime img Hx Hy | s sg Hs IH | s env Hs IH Hrun].
  - now split.
  - destruct (signalHandler_frame sg s) as (Ex & Ey & _). now rewrite Ex, Ey.
  - destruct (tick_input_view cfg env s) as (s2 & Ex2 & Ey2 & _ & Ex & Ey & _).
    rewrite Ex, Ey. apply apply_input_s32; [rewrite Ex2 | rewrite Ey2]; tauto.
Qed.

Lemma step_after_up (st : Z) :
  step_after StepUp st
  = if st =? 1 then 5 else if st =? 5 then 10 else if st =? 10 then 20 else st.
Proof.
  unfold step_after, index_of, ladder.
  destruct (Z.eqb_spec st 1) as [->|N1]; [reflexivity|].
  destruct (Z.eqb_spec st 5) as [->|N5]; [reflexivity|].
  destruct (Z.eqb_spec st 10) as [->|N10]; [reflexivity|].
  destruct (Z.eqb_spec 1 st); [congruence|].
  destruct (Z.eqb_spec 5 st); [congruence|].
  destruct (Z.eqb_spec 10 st); [congruence|].
  destruct (Z.eqb_spec 20 st) as [<-|]; reflexivity.
Qed.

Lemma step_after_down (st : Z) :
  step_after StepDown st
  = if st =? 20 then 10 else if st =? 10 then 5 else if st =? 5 then 1 else st.
Proof.
  unfold step_after, index_of, ladder.
  destruct (Z.eqb_spec st 20) as [->|N20]; [reflexivity|].
  destruct (Z.eqb_spec st 10) as [->|N10]; [reflexivity|].
  destruct (Z.eqb_spec st 5) as [->|N5]; [reflexivity|].
  destruct (Z.eqb_spec 1 st) as [<-|]; [reflexivity|].
  destruct (Z.eqb_spec 5 st); [congruence|].
  destruct (Z.eqb_spec 10 st); [congruence|].
  destruct (Z.eqb_spec 20 st); [congruence|]. reflexivity.
Qed.

Lemma signed_sum_key (c : Z) (keys : list Z) (st : Z) :
  signed_sum st (edits_of (c :: keys))
  = (fst (delta_of c st) + fst (signed_sum (next_step_of c st) (edits_of keys)),
     snd (delta_of c st) + snd (signed_sum (next_step_of c st) (edits_of keys))).
Proof.
  unfold delta_of, next_step_of, edits_of. cbn [flat_map].
  destruct (edit_of_key c) as [e|]; cbn [app signed_sum fst snd].
  - reflexivity.
  - now destruct (signed_sum st _).
Qed.

(** The switch does to the position and to the step what the edit of the
    character says. *)
Lemma switch_key_edit (c : Z) (s : state) :
  in_s32 (xOffset s) -> in_s32 (yOffset s) ->
  let s' := fst (switch_key (tolower c) s) in
  xOffset s' = wrap_s32 (xOffset s + fst (delta_of c (step s)))
  /\ yOffset s' = wrap_s32 (yOffset s + snd (delta_of c (step s)))
  /\ step s' = next_step_of c (step s).
Proof.
  intros Hx Hy. cbv zeta.
  unfold delta_of, next_step_of, edit_of_key, switch_key.
  destruct (tolower c =? 27) eqn:E27.
  { apply Z.eqb_eq in E27. rewrite E27. cbn.
    rewrite !Z.add_0_r, !wrap_s32_id by assumption. auto. }
  destruct (tolower c =? 97);
    [cbn; rewrite Z.add_0_r, (wrap_s32_id (yOffset s)) by assumption;
     repeat split; f_equal; lia|].
  destruct (tolower c =? 100);
    [cbn; rewrite Z.add_0_r, (wrap_s32_id (yOffset s)) by assumption;
     repeat split; f_equal; lia|].
  destruct (tolower c =? 119);
    [cbn; rewrite Z.add_0_r, (wrap_s32_id (xOffset s)) by assumption;
     repeat split; f_equal; lia|].
  destruct (tolower c =? 115);
    [cbn; rewrite Z.add_0_r, (wrap_s32_id (xOffset s)) by assumption;
     repeat split; f_equal; lia|].
  destruct (tolower c =? 43).
  { rewrite step_after_up. cbn [fst snd edit_delta].
    rewrite !Z.add_0_r, !wrap_s32_id by assumption.
    destruct (step s =? 1); [auto|].
    destruct (step s =? 5); [auto|].
    destruct (step s =? 10); auto. }
  destruct (tolower c =? 45).
  { rewrite step_after_down. cbn [fst snd edit_delta].
    rewrite !Z.add_0_r, !wrap_s32_id by assumption.
    destruct (step s =? 20); [auto|].
    destruct (step s =? 10); [auto|].
    destruct (step s =? 5); auto. }
  cbn. rewrite !Z.add_0_r, !wrap_s32_id by assumption. auto.
Qed.

Lemma apply_input_edit (cfg : config) (env : tick_env) (s : state) :
  interactive cfg = true ->
  in_s32 (xOffset s) -> in_s32 (yOffset s) ->
  let s' := fst (apply_input cfg env s) in
  let d := signed_sum (step s) (edits_of (keys_read [env])) in
  xOffset s' = wrap_s32 (xOffset s + fst d)
  /\ yOffset s' = wrap_s32 (yOffset s + snd d)
  /\ forall keys,
       signed_sum (step s) (edits_of (keys_read [env] ++ keys))
       = (fst d + fst (signed_sum (step s') (edits_of keys)),
          snd d + snd (signed_sum (step s') (edits_of keys))).
Proof.
  intros Hi Hx Hy. cbv zeta. unfold apply_input, keys_read. rewrite Hi.
  cbn [flat_map]. rewrite app_nil_r.
  destruct (keyboard env) as [c|].
  - pose proof (handle_key_fst c s) as E.
    destruct (handle_key c s) as [s1 tr]. cbn [fst] in *. subst s1.
    destruct (switch_key_edit c s Hx Hy) as (Ex & Ey & Es).
    rewrite (signed_sum_key c [] (step s)). cbn [edits_of flat_map signed_sum fst snd].
    rewrite !Z.add_0_r. repeat split; [exact Ex | exact Ey |].
    intro keys. cbn [app]. rewrite signed_sum_key, Es. reflexivity.
  - cbn [edits_of flat_map signed_sum fst snd app].
    rewrite !Z.add_0_r, !wrap_s32_id by assumption.
    repeat split. intro keys. now destruct (signed_sum (step s) _).
Qed.

Lemma tick_edit (cfg : config) (env : tick_env) (s : state) :
  interactive cfg = true ->
  in_s32 (xOffset s) -> in_s32 (yOffset s) ->
  let s' := fst (tick cfg env s) in
  let d := signed_sum (step s) (edits_of (keys_read [env])) in
  xOffset s' = wrap_s32 (xOffset s + fst d)
  /\ yOffset s' = wrap_s32 (yOffset s + snd d)
  /\ forall keys,
       signed_sum (step s) (edits_of (keys_read [env] ++ keys))
       = (fst d + fst (signed_sum (step s') (edits_of keys)),
          snd d + snd (signed_sum (step s') (edits_of keys))).
Proof.
  intros Hi Hx Hy. cbv zeta.
  destruct (tick_input_view cfg env s) as (s2 & Ex2 & Ey2 & Es2 & Ex & Ey & Es).
  rewrite Ex, Ey, Es, <- Ex2, <- Ey2, <- Es2.
  apply apply_input_edit; [exact Hi | rewrite Ex2 | rewrite Ey2]; assumption.
Qed.

Lemma session_cons (cfg : config) (env : tick_env) (rest : list tick_env)
      (s : state) :
  session cfg (env :: rest) s
  = if run (deliver (signals env) s) then
      (fst (session cfg rest (fst (tick cfg env (deliver (signals env) s)))),
       snd (tick cfg env (deliver (signals env) s))
       :: snd (session cfg rest (fst (tick cfg env (deliver (signals env) s)))))
    else (deliver (signals env) s, []).
Proof.
  cbn [session]. destruct (run (deliver (signals env) s)); [|reflexivity].
  destruct (tick cfg env _) as [s1 tr]. cbn [fst snd].
  destruct (session cfg rest s1) as [s2 trs]. reflexivity.
Qed.

Lemma session_position (cfg : config) (envs : list tick_env) (s : state) :
  interactive cfg = true ->
  in_s32 (xOffset s) -> in_s32 (yOffset s) ->
  let d := signed_sum (step s)
             (edits_of (keys_read (firstn (iterations cfg envs s) envs))) in
  xOffset (fst (session cfg envs s)) = wrap_s32 (xOffset s + fst d)
  /\ yOffset (fst (session cfg envs s)) = wrap_s32 (yOffset s + snd d).
Proof.
  intro Hi. revert s. unfold iterations.
  induction envs as [|env rest IH]; intros s Hx Hy; cbv zeta.
  - cbn. rewrite !Z.add_0_r, !wrap_s32_id by assumption. auto.
  - rewrite session_cons.
    destruct (deliver_frame (signals env) s) as (Dx & Dy & Ds & _).
    set (s0 := deliver (signals env) s) in *.
    destruct (run s0).
    + cbn [fst snd List.length firstn].
      assert (Hx0 : in_s32 (xOffset s0)) by now rewrite Dx.
      assert (Hy0 : in_s32 (yOffset s0)) by now rewrite Dy.
      destruct (tick_edit cfg env s0 Hi Hx0 Hy0) as (Ex & Ey & Esum).
      set (s1 := fst (tick cfg env s0)) in *.
      assert (Hx1 : in_s32 (xOffset s1)) by (rewrite Ex; apply wrap_s32_range).
      assert (Hy1 : in_s32 (yOffset s1)) by (rewrite Ey; apply wrap_s32_range).
      destruct (IH s1 Hx1 Hy1) as (Fx & Fy).
      change (env :: firstn (List.length (snd (session cfg rest s1))) rest)
        with ([env] ++ firstn (List.length (snd (session cfg rest s1))) rest).
      unfold keys_read in *. rewrite flat_map_app.
      rewrite <- Ds, Esum. cbn [fst snd].
      rewrite Fx, Fy, Ex, Ey, !wrap_s32_add, Dx, Dy, !Z.add_assoc. auto.
    + cbn. rewrite !Z.add_0_r, !wrap_s32_id by congruence. auto.
Qed.

(** C8 as amended.  For every sequence of keyboard events that the loop
    applies (the
    characters read in the iterations it ran, directional moves and step
    changes in any order), the position when the loop is left is the
    position at its start plus the signed sum of the moves, each with the
    step in force when it was applied; the sum is taken in the [int32_t] of
    the two offsets (two's complement, modulo 2^32), so it is the plain sum
    whenever that fits 32 bits. *)
Theorem C8_position_signed_sum (cfg : config) (envs : list tick_env)
        (s : state) (Hs : reachable cfg s) (Hi : interactive cfg = true) :
  let s' := fst (session cfg envs s) in
  let applied := edits_of (keys_read (firstn (iterations cfg envs s) envs)) in
  let d := signed_sum (step s) applied in
  xOffset s' = wrap_s32 (xOffset s + fst d)
  /\ yOffset s' = wrap_s32 (yOffset s + snd d)
  /\ (in_s32 (xOffset s + fst d) -> xOffset s' = xOffset s + fst d)
  /\ (in_s32 (yOffset s + snd d) -> yOffset s' = yOffset s + snd d).
Proof.
  cbv zeta.
  destruct (reachable_s32 cfg s Hs) as (Hx & Hy).
  destruct (session_position cfg envs s Hi Hx Hy) as (Ex & Ey).
  repeat split; try assumption.
  - intro H. rewrite Ex. now apply wrap_s32_id.
  - intro H. rewrite Ey. now apply wrap_s32_id.
Qed.

(** C8 as the specification has it, with the sum of the integers, fails on
    the code: started with [-x 2147483647], one 'd' moves the layer by the
    step 1, and the offset, an [int32_t], is then -2147483648 and not
    2147483648. *)
Lemma C8_sum_leaves_int32 :
  let cfg := mkConfig 0 true false "image.png" in
  let s := init_state cfg 2147483647 0 0 1 in
  let envs := [mkEnv [] [] None 0 None (Some 100)] in
  reachable cfg s
  /\ signed_sum (step s)
                (edits_of (keys_read (firstn (iterations cfg envs s) envs)))
     = (1, 0)
  /\ xOffset (fst (session cfg envs s)) = -2147483648
  /\ ~ spec_position_plain_sum.
Proof.
  cbv zeta.
  assert (R : reachable (mkConfig 0 true false "image.png")
                        (init_state (mkConfig 0 true false "image.png")
                                    2147483647 0 0 1))
    by (apply reach_init; unfold in_s32; lia).
  split; [exact R|]. split; [reflexivity|]. split; [reflexivity|].
  intro H.
  destruct (H (mkConfig 0 true false "image.png")
              [mkEnv [] [] None 0 None (Some 100)]
              (init_state (mkConfig 0 true false "image.png")
                          2147483647 0 0 1) R eq_refl) as (Hx & _).
  vm_compute in Hx. discriminate Hx.
Qed.

(** ** Case of the letters *)

Lemma tolower_idem (c : Z) : tolower (tolower c) = tolower c.
Proof.
  unfold tolower.
  destruct ((65 <=? c) && (c <=? 90)) eqn:E; [|now rewrite E].
  apply andb_prop in E. destruct E as [E1 E2].
  apply Z.leb_le in E1, E2.
  destruct (65 <=? c + 32) eqn:F1; [|reflexivity].
  destruct (c + 32 <=? 90) eqn:F2; [|reflexivity].
  apply Z.leb_le in F2. lia.
Qed.

Lemma handle_key_tolower (c : Z) (s : state) :
  handle_key (tolower c) s = handle_key c s.
Proof. unfold handle_key. now rewrite tolower_idem. Qed.

Lemma tick_lower_key (cfg : config) (env : tick_env) (s : state) :
  tick cfg (lower_key env) s = tick cfg env s.
Proof.
  unfold tick, lower_key.
  change (check_file cfg (with_key _ env) s) with (check_file cfg env s).
  destruct (check_file cfg env s) as [s1 t1].
  change (apply_reload cfg (with_key _ env) s1) with (apply_reload cfg env s1).
  destruct (apply_reload cfg env s1) as [s2 t2].
  replace (apply_input cfg (with_key (option_map tolower (keyboard env)) env) s2)
    with (apply_input cfg env s2); [reflexivity|].
  unfold apply_input. cbn [keyboard with_key].
  destruct (interactive cfg); [|reflexivity].
  destruct (keyboard env) as [c|]; [|reflexivity].
  cbn [option_map]. now rewrite handle_key_tolower.
Qed.

Lemma session_lower_key (cfg : config) (envs : list tick_env) (s : state) :
  session cfg (map lower_key envs) s = session cfg envs s.
Proof.
  revert s. induction envs as [|env rest IH]; intro s; [reflexivity|].
  cbn [map]. rewrite !session_cons.
  change (signals (lower_key env)) with (signals env).
  now rewrite tick_lower_key, !IH.
Qed.

(** C9.  Keyboard handling does not depend on the case of a letter: an
    iteration in which the keyboard gives a character [c] ends in the same
    state, after the same calls, as one in which it gives the lower-case
    form of [c], and so does a whole session; in particular 'A', 'D', 'W'
    and 'S' (65, 68, 87, 83) are handled as 'a', 'd', 'w' and 's', which
    move the layer by the step to the left, to the right, up and down. *)
Theorem C9_case_insensitive (cfg : config) (env : tick_env) (s : state)
        (c : Z) :
  tick cfg (with_key (Some c) env) s
  = tick cfg (with_key (Some (tolower c)) env) s
  /\ handle_key c s = handle_key (tolower c) s
  /\ (forall envs, session cfg (map lower_key envs) s = session cfg envs s)
  /\ (handle_key 65 s = handle_key 97 s
      /\ xOffset (fst (handle_key 65 s)) = wrap_s32 (xOffset s - step s)
      /\ moves (snd (handle_key 65 s)) = 1%nat)
  /\ (handle_key 68 s = handle_key 100 s
      /\ xOffset (fst (handle_key 68 s)) = wrap_s32 (xOffset s + step s)
      /\ moves (snd (handle_key 68 s)) = 1%nat)
  /\ (handle_key 87 s = handle_key 119 s
      /\ yOffset (fst (handle_key 87 s)) = wrap_s32 (yOffset s - step s)
      /\ moves (snd (handle_key 87 s)) = 1%nat)
  /\ (handle_key 83 s = handle_key 115 s
      /\ yOffset (fst (handle_key 83 s)) = wrap_s32 (yOffset s + step s)
      /\ moves (snd (handle_key 83 s)) = 1%nat).
Proof.
  split.
  { rewrite <- (tick_lower_key cfg (with_key (Some c) env) s). reflexivity. }
  split; [symmetry; apply handle_key_tolower|].
  split; [intro envs; apply session_lower_key|].
  repeat split.
Qed.

(** ** Sessions without interactivity *)

Lemma check_file_events (cfg : config) (env : tick_env) (s : state) :
  Forall (fun ev => input_event ev = false) (snd (check_file cfg env s))
  /\ transactions (snd (check_file cfg env s)) = 0%nat
  /\ content_swaps (snd (check_file cfg env s)) = 0%nat.
Proof.
  unfold check_file. destruct (monitorChanges cfg && _); cbn; auto.
Qed.

Lemma apply_reload_events (cfg : config) (env : tick_env) (s : state) :
  Forall (fun ev => input_event ev = false) (snd (apply_reload cfg env s))
  /\ transactions (snd (apply_reload cfg env s))
     = content_swaps (snd (apply_reload cfg env s)).
Proof.
  unfold apply_reload.
  destruct (reload s); [|cbn; auto].
  destruct (negb _); [|cbn; auto].
  destruct (png env); cbn; auto.
Qed.

Lemma transactions_app (k : nat) (t1 t2 : list event) :
  transactions_with k (t1 ++ t2)
  = (transactions_with k t1 + transactions_with k t2)%nat.
Proof. unfold transactions_with. now rewrite map_app, list_sum_app. Qed.

Lemma content_swaps_app (t1 t2 : list event) :
  content_swaps (t1 ++ t2) = (content_swaps t1 + content_swaps t2)%nat.
Proof. unfold content_swaps. now rewrite filter_app, length_app. Qed.

Lemma moves_none (tr : list event) :
  Forall (fun ev => input_event ev = false) tr -> moves tr = 0%nat.
Proof.
  induction 1 as [|ev tr Hev _ IH]; [reflexivity|].
  unfold moves in *. cbn [filter]. destruct ev; try discriminate Hev; exact IH.
Qed.

Lemma tick_not_interactive (cfg : config) (env : tick_env) (s : state) :
  interactive cfg = false ->
  xOffset (fst (tick cfg env s)) = xOffset s
  /\ yOffset (fst (tick cfg env s)) = yOffset s
  /\ step (fst (tick cfg env s)) = step s
  /\ Forall (fun ev => input_event ev = false) (snd (tick cfg env s))
  /\ transactions (snd (tick cfg env s)) = content_swaps (snd (tick cfg env s)).
Proof.
  intro Hn.
  destruct (tick_input_view cfg env s) as (s2 & Ex2 & Ey2 & Es2 & Ex & Ey & Es).
  rewrite Ex, Ey, Es. rewrite tick_unfold. cbn [snd].
  unfold apply_input at 1 2 3. rewrite Hn. cbn [fst].
  repeat split; try assumption.
  - destruct (check_file_events cfg env s) as (F1 & _).
    destruct (apply_reload_events cfg env (fst (check_file cfg env s)))
      as (F2 & _).
    rewrite !Forall_app. repeat split; try assumption.
    + unfold apply_input. rewrite Hn. constructor.
    + cbn. auto.
  - destruct (check_file_events cfg env s) as (_ & T1 & C1).
    destruct (apply_reload_events cfg env (fst (check_file cfg env s)))
      as (_ & T2).
    unfold transactions in *.
    rewrite !transactions_app, !content_swaps_app, T1, C1, T2.
    unfold apply_input. rewrite Hn. reflexivity.
Qed.

(** C10.  When interactivity is off ([-n]), whatever the environment does,
    the offsets and the step are when the loop is left what they were when
    it was entered, and in no iteration is [keyPressed] called (no key is
    consumed) or an update started, a move made or an update submitted by
    the loop: the only transactions of an iteration are those of the
    content swaps of its reloads. *)
Theorem C10_not_interactive (cfg : config) (envs : list tick_env)
        (s : state) (Hn : interactive cfg = false) :
  xOffset (fst (session cfg envs s)) = xOffset s
  /\ yOffset (fst (session cfg envs s)) = yOffset s
  /\ step (fst (session cfg envs s)) = step s
  /\ Forall (fun tr => Forall (fun ev => input_event ev = false) tr
                       /\ moves tr = 0%nat
                       /\ transactions tr = content_swaps tr)
            (snd (session cfg envs s)).
Proof.
  revert s. induction envs as [|env rest IH]; intro s.
  - cbn. auto.
  - rewrite session_cons.
    destruct (deliver_frame (signals env) s) as (Dx & Dy & Ds & _).
    set (s0 := deliver (signals env) s) in *.
    destruct (run s0); cbn [fst snd]; [|auto].
    destruct (tick_not_interactive cfg env s0 Hn) as (Ex & Ey & Es & F & T).
    destruct (IH (fst (tick cfg env s0))) as (Fx & Fy & Fs & FF).
    repeat split; try congruence.
    constructor; [|exact FF].
    repeat split; [exact F | now apply moves_none | exact T].
Qed.

(** ** The timeout *)

Lemma deliver_run_false (sigs : list signal) (s : state) :
  run s = false -> run (deliver sigs s) = false.
Proof.
  revert s. induction sigs as [|sg sigs IH]; intros s H; cbn; [exact H|].
  apply IH. destruct sg; cbn; auto.
Qed.

Lemma deliver_run_no_stop (sigs : list signal) (s : state) :
  forallb (fun sg => negb (stop_signal sg)) sigs = true ->
  run (deliver sigs s) = run s.
Proof.
  revert s. induction sigs as [|sg sigs IH]; intros s H; cbn in *; [reflexivity|].
  apply andb_prop in H. destruct H as [H1 H2].
  unfold deliver in IH. rewrite (IH _ H2).
  destruct sg; cbn in *; congruence.
Qed.

Lemma apply_reload_run (cfg : config) (env : tick_env) (s : state) :
  forallb (fun sg => negb (stop_signal sg)) (signals_loading env) = true ->
  run (fst (apply_reload cfg env s)) = run s.
Proof.
  intro H. unfold apply_reload.
  destruct (reload s); [|reflexivity].
  destruct (negb _); [|reflexivity].
  pose proof (deliver_run_no_stop _ (set_reload false s) H) as E.
  destruct (png env); cbn; exact E.
Qed.

Lemma switch_key_run (c : Z) (s : state) :
  (c =? 27) = false ->
  run (fst (switch_key c s)) = run s
  /\ currentTime (fst (switch_key c s)) = currentTime s.
Proof.
  intro H. unfold switch_key. rewrite H.
  repeat match goal with
         | |- context [if ?b then _ else _] => destruct b
         end; cbn; auto.
Qed.

Lemma switch_key_time (c : Z) (s : state) :
  currentTime (fst (switch_key c s)) = currentTime s.
Proof.
  unfold switch_key.
  repeat match goal with
         | |- context [if ?b then _ else _] => destruct b
         end; reflexivity.
Qed.

Lemma apply_input_time (cfg : config) (env : tick_env) (s : state) :
  currentTime (fst (apply_input cfg env s)) = currentTime s.
Proof.
  unfold apply_input.
  destruct (interactive cfg); [|reflexivity].
  destruct (keyboard env) as [c|]; [|reflexivity].
  pose proof (handle_key_fst c s) as E.
  destruct (handle_key c s) as [s1 tr]. cbn [fst] in *. subst s1.
  apply switch_key_time.
Qed.

Lemma apply_input_run (cfg : config) (env : tick_env) (s : state) :
  match keyboard env with
  | Some c => negb (tolower c =? 27)
  | None => true
  end = true ->
  run (fst (apply_input cfg env s)) = run s.
Proof.
  intro H. unfold apply_input.
  destruct (interactive cfg); [|reflexivity].
  destruct (keyboard env) as [c|]; [|reflexivity].
  pose proof (handle_key_fst c s) as E.
  destruct (handle_key c s) as [s1 tr]. cbn [fst] in *. subst s1.
  apply switch_key_run. now apply negb_true_iff.
Qed.

(** The elapsed time after an iteration, and whether the loop goes on, when
    nothing else asks it to stop. *)
Lemma tick_time (cfg : config) (env : tick_env) (s : state) :
  currentTime (fst (tick cfg env s))
  = wrap_u32 (currentTime s + sleepMilliseconds).
Proof.
  rewrite tick_unfold. cbn [fst].
  destruct (check_file_frame cfg env s) as (_ & _ & _ & _ & E1 & _).
  destruct (apply_reload_frame cfg env (fst (check_file cfg env s)))
    as (_ & _ & _ & E2).
  pose proof (apply_input_time cfg env
                (fst (apply_reload cfg env (fst (check_file cfg env s))))) as E3.
  unfold sleep_and_timeout. cbn [fst].
  destruct (negb _ && _); cbn; congruence.
Qed.

Lemma tick_run (cfg : config) (env : tick_env) (s : state) :
  no_stop env = true ->
  run (fst (tick cfg env s))
  = run s && negb (negb (timeout cfg =? 0)
                   && (timeout cfg <=? wrap_u32 (currentTime s + sleepMilliseconds))).
Proof.
  intro Hq. unfold no_stop in Hq.
  apply andb_prop in Hq. destruct Hq as [Hq Hk].
  apply andb_prop in Hq. destruct Hq as [_ Hl].
  rewrite tick_unfold. cbn [fst].
  destruct (check_file_frame cfg env s) as (_ & _ & _ & _ & E1 & R1).
  destruct (apply_reload_frame cfg env (fst (check_file cfg env s)))
    as (_ & _ & _ & E2).
  pose proof (apply_reload_run cfg env (fst (check_file cfg env s)) Hl) as R2.
  pose proof (apply_input_run cfg env
                (fst (apply_reload cfg env (fst (check_file cfg env s)))) Hk)
    as R3.
  pose proof (apply_input_time cfg env
                (fst (apply_reload cfg env (fst (check_file cfg env s))))) as E3.
  set (s3 := fst (apply_input cfg env _)) in *.
  assert (R : run s3 = run s) by congruence.
  assert (E : currentTime s3 = currentTime s) by congruence.
  unfold sleep_and_timeout. cbn [fst currentTime set_currentTime].
  rewrite E.
  destruct (negb (timeout cfg =? 0) && _); cbn; rewrite ?R;
    destruct (run s); reflexivity.
Qed.

Lemma elapsed_succ (k : nat) :
  wrap_u32 (elapsed k + sleepMilliseconds) = elapsed (S k).
Proof.
  unfold elapsed, wrap_u32, sleepMilliseconds.
  rewrite Zplus_mod_idemp_l. f_equal. lia.
Qed.

Lemma session_stopped (cfg : config) (envs : list tick_env) (s : state) :
  run s = false ->
  run (fst (session cfg envs s)) = false /\ iterations cfg envs s = 0%nat.
Proof.
  intro H. unfold iterations. destruct envs as [|env rest]; [now cbn|].
  rewrite session_cons, (deliver_run_false _ _ H). cbn.
  split; [now apply deliver_run_false | reflexivity].
Qed.

(** While the timeout does not fire and nothing asks to stop, every
    iteration runs. *)
Lemma session_quiet (cfg : config) (envs : list tick_env) (s : state)
      (k : nat) :
  Forall (fun env => no_stop env = true) envs ->
  run s = true -> currentTime s = elapsed k ->
  (forall m, (k < m <= k + List.length envs)%nat ->
             timeout cfg = 0 \/ elapsed m < timeout cfg) ->
  run (fst (session cfg envs s)) = true
  /\ iterations cfg envs s = List.length envs
  /\ currentTime (fst (session cfg envs s)) = elapsed (k + List.length envs).
Proof.
  unfold iterations. revert s k.
  induction envs as [|env rest IH]; intros s k Hq Hrun Ht Hno.
  - cbn. rewrite Nat.add_0_r. auto.
  - inversion Hq as [|? ? Hq1 Hq2]; subst.
    rewrite session_cons.
    assert (Hs : forallb (fun sg => negb (stop_signal sg)) (signals env) = true).
    { unfold no_stop in Hq1. apply andb_prop in Hq1. destruct Hq1 as [Hq1 _].
      apply andb_prop in Hq1. tauto. }
    rewrite (deliver_run_no_stop _ s Hs), Hrun. cbn [fst snd List.length].
    set (s0 := deliver (signals env) s).
    assert (Ht0 : currentTime s0 = elapsed k).
    { destruct (deliver_frame (signals env) s) as (_ & _ & _ & _ & E).
      unfold s0. congruence. }
    assert (Hr0 : run s0 = true).
    { unfold s0. now rewrite (deliver_run_no_stop _ s Hs). }
    pose proof (tick_time cfg env s0) as T1.
    pose proof (tick_run cfg env s0 Hq1) as R1.
    rewrite Ht0, elapsed_succ in T1, R1. rewrite Hr0 in R1.
    assert (R1' : run (fst (tick cfg env s0)) = true).
    { rewrite R1. cbn [andb]. apply negb_true_iff.
      destruct (Hno (S k) ltac:(cbn [List.length]; lia)) as [Z0 | Lt].
      - rewrite Z0. reflexivity.
      - apply andb_false_iff. right. apply Z.leb_gt. exact Lt. }
    destruct (IH (fst (tick cfg env s0)) (S k) Hq2 R1' T1) as (A & B & C).
    { intros m Hm. apply Hno. cbn [List.length]. lia. }
    rewrite A, B, C. repeat split. f_equal. cbn [List.length]. lia.
Qed.

Lemma session_app (cfg : config) (l1 l2 : list tick_env) (s : state) :
  iterations cfg l1 s = List.length l1 ->
  fst (session cfg (l1 ++ l2) s) = fst (session cfg l2 (fst (session cfg l1 s)))
  /\ iterations cfg (l1 ++ l2) s
     = (List.length l1 + iterations cfg l2 (fst (session cfg l1 s)))%nat.
Proof.
  unfold iterations. revert s.
  induction l1 as [|env rest IH]; intros s H; [now cbn|].
  cbn [app]. rewrite !session_cons. rewrite session_cons in H.
  destruct (run (deliver (signals env) s)).
  - cbn [fst snd List.length] in *.
    destruct (IH (fst (tick cfg env (deliver (signals env) s)))) as (A & B);
      [lia|].
    rewrite A, B. split; [reflexivity | lia].
  - cbn in H. discriminate H.
Qed.

Lemma Forall_firstn_env (P : tick_env -> Prop) (n : nat) (l : list tick_env) :
  Forall P l -> Forall P (firstn n l).
Proof.
  intro H. rewrite <- (firstn_skipn n l) in H.
  apply Forall_app in H. tauto.
Qed.

Lemma split_at (n : nat) (l : list tick_env) :
  (n < List.length l)%nat ->
  exists l1 env l2, l = l1 ++ env :: l2 /\ List.length l1 = n.
Proof.
  revert l. induction n as [|n IH]; intros [|x l] H; cbn in H; try lia.
  - exists [], x, l. now cbn.
  - destruct (IH l ltac:(lia)) as (l1 & env & l2 & E & L).
    exists (x :: l1), env, l2. cbn. split; [now rewrite E | now rewrite L].
Qed.

(** Before the first iteration at whose end the elapsed time reaches the
    timeout, the loop goes on. *)
Lemma session_before_timeout (cfg : config) (envs : list tick_env)
      (s : state) (n : nat) :
  Forall (fun env => no_stop env = true) envs ->
  run s = true -> currentTime s = elapsed 0 ->
  first_timeout (timeout cfg) n -> (List.length envs < n)%nat ->
  run (fst (session cfg envs s)) = true
  /\ iterations cfg envs s = List.length envs
  /\ currentTime (fst (session cfg envs s)) = elapsed (List.length envs).
Proof.
  intros Hq Hrun Ht (_ & _ & Hb) Hlen.
  apply (session_quiet cfg envs s 0 Hq Hrun Ht).
  intros m Hm. right. apply Hb. lia.
Qed.

(** At that iteration it stops, whatever further iterations the
    environment would allow. *)
Lemma session_timeout (cfg : config) (envs : list tick_env) (s : state)
      (n : nat) :
  Forall (fun env => no_stop env = true) envs ->
  run s = true -> currentTime s = elapsed 0 ->
  0 < timeout cfg -> first_timeout (timeout cfg) n ->
  (n <= List.length envs)%nat ->
  run (fst (session cfg envs s)) = false /\ iterations cfg envs s = n.
Proof.
  intros Hq Hrun Ht Hpos Hfirst Hlen.
  pose proof Hfirst as (Hn & Hge & _).
  destruct (split_at (n - 1) envs ltac:(lia)) as (l1 & env & l2 & E & L).
  subst envs. apply Forall_app in Hq. destruct Hq as [Hq1 Hq2].
  inversion Hq2 as [|? ? Hqe Hq3]; subst.
  destruct (session_before_timeout cfg l1 s n Hq1 Hrun Ht Hfirst ltac:(lia))
    as (R1 & I1 & T1).
  destruct (session_app cfg l1 (env :: l2) s I1) as (A & B).
  rewrite A, B. clear A B.
  set (s1 := fst (session cfg l1 s)) in *.
  unfold iterations. rewrite session_cons.
  assert (Hs : forallb (fun sg => negb (stop_signal sg)) (signals env) = true).
  { unfold no_stop in Hqe. apply andb_prop in Hqe. destruct Hqe as [Hqe _].
    apply andb_prop in Hqe. tauto. }
  rewrite (deliver_run_no_stop _ s1 Hs), R1. cbn [fst snd List.length].
  set (s2 := deliver (signals env) s1).
  assert (R2 : run s2 = true) by (unfold s2; now rewrite deliver_run_no_stop).
  assert (T2 : currentTime s2 = elapsed (n - 1)).
  { destruct (deliver_frame (signals env) s1) as (_ & _ & _ & _ & E).
    unfold s2. congruence. }
  pose proof (tick_run cfg env s2 Hqe) as R3.
  rewrite R2, T2, elapsed_succ in R3.
  replace (S (n - 1)) with n in R3 by lia.
  assert (R3' : run (fst (tick cfg env s2)) = false).
  { rewrite R3. cbn [andb]. apply negb_false_iff. apply andb_true_iff. split.
    - apply negb_true_iff. apply Z.eqb_neq. lia.
    - now apply Z.leb_le. }
  destruct (session_stopped cfg l2 _ R3') as (R4 & I4).
  unfold iterations in I4. rewrite R4, I4. split; [reflexivity | lia].
Qed.

(** A timeout of at most 4294967290 ms is reached before the counter of the
    elapsed time wraps: the first iteration that reaches it is number
    [ceil (T / 10)]. *)
Lemma first_timeout_exists (T : Z) :
  0 < T <= 4294967290 ->
  first_timeout T (Z.to_nat ((T + 9) / 10))
  /\ elapsed (Z.to_nat ((T + 9) / 10)) = 10 * ((T + 9) / 10).
Proof.
  intro HT.
  pose proof (Z.mul_div_le (T + 9) 10 ltac:(lia)) as Hlo.
  pose proof (Z.mul_succ_div_gt (T + 9) 10 ltac:(lia)) as Hhi.
  set (q := (T + 9) / 10) in *.
  assert (Hq : 1 <= q) by lia.
  assert (En : forall m, (m <= Z.to_nat q)%nat -> elapsed m = 10 * Z.of_nat m).
  { intros m Hm. unfold elapsed, wrap_u32, sleepMilliseconds.
    apply Z.mod_small. lia. }
  split.
  - repeat split.
    + lia.
    + rewrite En by lia. lia.
    + intros m Hm. rewrite En by lia. lia.
  - rewrite En by lia. lia.
Qed.

Lemma first_timeout_50 : first_timeout 50 5.
Proof.
  repeat split.
  - lia.
  - vm_compute. discriminate.
  - intros m Hm.
    destruct m as [|[|[|[|[|m]]]]]; try lia; vm_compute; reflexivity.
Qed.

(** The counter of the elapsed time takes even values only: a timeout of
    4294967295 ms, the largest of its type, is never reached. *)
Lemma elapsed_below_max (m : nat) : elapsed m < 4294967295.
Proof.
  unfold elapsed, wrap_u32, sleepMilliseconds.
  pose proof (Z.mod_pos_bound (10 * Z.of_nat m) (2 ^ 32) ltac:(lia)) as B.
  pose proof (Z.div_mod (10 * Z.of_nat m) (2 ^ 32) ltac:(lia)) as E.
  lia.
Qed.

(** The timeout on the counter of the program.  In a session in which
    nothing else asks the loop to stop, with the elapsed time counted in
    steps of 10 ms from 0 in 32 bits: for a timeout [T > 0], if iteration
    [n] is the first at whose end the counter is at least [T], then [run]
    is false after iteration [n], the loop runs exactly [n] iterations, and
    after every earlier iteration [run] is still true; for [T] up to
    4294967290 that iteration is number [ceil (T / 10)]; with a timeout of
    50 the loop runs exactly 5 iterations and stops; with a timeout of 0
    every iteration runs and [run] stays true. *)
Lemma timeout_on_the_counter (cfg : config) (envs : list tick_env)
        (x y mtime img : Z)
        (Hq : Forall (fun env => no_stop env = true) envs) :
  let s0 := init_state cfg x y mtime img in
  let T := timeout cfg in
  (forall n, 0 < T -> first_timeout T n -> (n <= List.length envs)%nat ->
     run (fst (session cfg (firstn n envs) s0)) = false
     /\ run (fst (session cfg envs s0)) = false
     /\ iterations cfg envs s0 = n
     /\ forall m, (m < n)%nat ->
          run (fst (session cfg (firstn m envs) s0)) = true
          /\ iterations cfg (firstn m envs) s0 = m)
  /\ (0 < T <= 4294967290 ->
      first_timeout T (Z.to_nat ((T + 9) / 10))
      /\ elapsed (Z.to_nat ((T + 9) / 10)) = 10 * ((T + 9) / 10))
  /\ (T = 50 -> (5 <= List.length envs)%nat ->
      iterations cfg envs s0 = 5%nat
      /\ run (fst (session cfg envs s0)) = false)
  /\ (T = 0 ->
      iterations cfg envs s0 = List.length envs
      /\ run (fst (session cfg envs s0)) = true).
Proof.
  cbv zeta.
  set (s0 := init_state cfg x y mtime img).
  assert (Hrun : run s0 = true) by reflexivity.
  assert (Ht : currentTime s0 = elapsed 0) by reflexivity.
  split; [|split; [|split]].
  - intros n Hpos Hfirst Hlen.
    destruct (session_timeout cfg envs s0 n Hq Hrun Ht Hpos Hfirst Hlen)
      as (R & I).
    assert (Hqn : forall m, Forall (fun env => no_stop env = true)
                                   (firstn m envs))
      by (intro m; now apply Forall_firstn_env).
    destruct (session_timeout cfg (firstn n envs) s0 n (Hqn n) Hrun Ht Hpos
                              Hfirst) as (Rn & _).
    { rewrite firstn_length_le; lia. }
    repeat split; try assumption.
    + destruct (session_before_timeout cfg (firstn m envs) s0 n (Hqn m) Hrun
                                       Ht Hfirst) as (A & _).
      { rewrite firstn_length_le; lia. }
      exact A.
    + destruct (session_before_timeout cfg (firstn m envs) s0 n (Hqn m) Hrun
                                       Ht Hfirst) as (_ & B & _).
      { rewrite firstn_length_le; lia. }
      rewrite B. apply firstn_length_le. lia.
  - apply first_timeout_exists.
  - intros E Hlen.
    destruct (session_timeout cfg envs s0 5 Hq Hrun Ht) as (R & I).
    + lia.
    + rewrite E. exact first_timeout_50.
    + exact Hlen.
    + now split.
  - intro E.
    destruct (session_quiet cfg envs s0 0 Hq Hrun Ht) as (R & I & _).
    + intros m _. now left.
    + now split.
Qed.

(** C7 as amended.  In a session in which nothing else asks the loop to
    stop, for every timeout [T] from 1 to 4294967290 (the values that the
    32-bit counter of the elapsed time reaches before it wraps): iteration
    [n = ceil (T / 10)] is the first by which the 10 ms accumulated per
    iteration are at least [T]; [run] is false after iteration [n], the
    loop runs exactly [n] iterations, and after every earlier iteration
    [run] is still true.  With a timeout of 50 the loop runs exactly 5
    iterations and stops; with a timeout of 0 every iteration runs and
    [run] stays true. *)
Theorem C7_timeout_in_range (cfg : config) (envs : list tick_env)
        (x y mtime img : Z)
        (Hq : Forall (fun env => no_stop env = true) envs) :
  let s0 := init_state cfg x y mtime img in
  let T := timeout cfg in
  let n := Z.to_nat ((T + 9) / 10) in
  (0 < T <= 4294967290 -> (n <= List.length envs)%nat ->
     T <= sleepMilliseconds * Z.of_nat n
     /\ (forall m, (m < n)%nat -> sleepMilliseconds * Z.of_nat m < T)
     /\ run (fst (session cfg (firstn n envs) s0)) = false
     /\ run (fst (session cfg envs s0)) = false
     /\ iterations cfg envs s0 = n
     /\ forall m, (m < n)%nat ->
          run (fst (session cfg (firstn m envs) s0)) = true
          /\ iterations cfg (firstn m envs) s0 = m)
  /\ (T = 50 -> (5 <= List.length envs)%nat ->
      iterations cfg envs s0 = 5%nat
      /\ run (fst (session cfg envs s0)) = false)
  /\ (T = 0 ->
      iterations cfg envs s0 = List.length envs
      /\ run (fst (session cfg envs s0)) = true).
Proof.
  cbv zeta.
  destruct (timeout_on_the_counter cfg envs x y mtime img Hq)
    as (A & _ & B & C).
  cbv zeta in A, B, C.
  split; [|split; [exact B | exact C]].
  intros HT Hlen.
  destruct (first_timeout_exists (timeout cfg) HT) as (F & _).
  destruct (A _ (proj1 HT) F Hlen) as (R1 & R2 & I & E).
  pose proof (Z.mul_div_le (timeout cfg + 9) 10 ltac:(lia)) as Hlo.
  pose proof (Z.mul_succ_div_gt (timeout cfg + 9) 10 ltac:(lia)) as Hhi.
  unfold sleepMilliseconds.
  repeat split; try assumption; try apply E; try lia.
Qed.

(** C7 as the specification has it, for every [T > 0], fails on the code,
    which keeps the elapsed time in 32 bits.  With the largest timeout,
    4294967295 ([-t -1] gives it), the counter, a multiple of 10 modulo
    2^32 and so an even number, never reaches the timeout, and the loop is
    never stopped by it.  With a timeout of 4294967291, the 10 ms per
    iteration add up to 4294967300 in iteration 429496730, but the counter
    is then 4 and [run] is still true. *)
Lemma C7_timeout_counter_wraps :
  let quiet := mkEnv [] [] None 0 None None in
  (let cfg := mkConfig 4294967295 true false "image.png" in
   forall n,
     run (fst (session cfg (repeat quiet n) (init_state cfg 0 0 0 1))) = true
     /\ iterations cfg (repeat quiet n) (init_state cfg 0 0 0 1) = n)
  /\ (let cfg := mkConfig 4294967291 true false "image.png" in
      let n := Z.to_nat 429496730 in
      timeout cfg <= sleepMilliseconds * Z.of_nat n
      /\ elapsed n = 4
      /\ run (fst (session cfg (repeat quiet n) (init_state cfg 0 0 0 1)))
         = true)
  /\ ~ spec_timeout_every_T.
Proof.
  cbv zeta.
  assert (Q : forall n, Forall (fun env => no_stop env = true)
                               (repeat (mkEnv [] [] None 0 None None) n)).
  { intro n. apply Forall_forall. intros e He.
    apply repeat_spec in He. now subst e. }
  assert (Never : forall n,
             run (fst (session (mkConfig 4294967295 true false "image.png")
                               (repeat (mkEnv [] [] None 0 None None) n)
                               (init_state
                                  (mkConfig 4294967295 true false "image.png")
                                  0 0 0 1))) = true
             /\ iterations (mkConfig 4294967295 true false "image.png")
                           (repeat (mkEnv [] [] None 0 None None) n)
                           (init_state
                              (mkConfig 4294967295 true false "image.png")
                              0 0 0 1) = n).
  { intro n.
    destruct (session_quiet (mkConfig 4294967295 true false "image.png")
                            (repeat (mkEnv [] [] None 0 None None) n)
                            (init_state
                               (mkConfig 4294967295 true false "image.png")
                               0 0 0 1) 0 (Q n) eq_refl eq_refl)
      as (R & I & _).
    - intros m _. right. cbn [timeout]. apply elapsed_below_max.
    - rewrite repeat_length in I. now split. }
  set (N := Z.to_nat 429496730).
  assert (HN : Z.of_nat N = 429496730) by (apply Z2Nat.id; lia).
  clearbody N.
  split; [exact Never|]. split; [split; [|split]|].
  - cbn [timeout]. unfold sleepMilliseconds. lia.
  - unfold elapsed, sleepMilliseconds, wrap_u32. rewrite HN. reflexivity.
  - destruct (session_quiet (mkConfig 4294967291 true false "image.png")
                            (repeat (mkEnv [] [] None 0 None None) N)
                            (init_state
                               (mkConfig 4294967291 true false "image.png")
                               0 0 0 1) 0 (Q N) eq_refl eq_refl)
      as (R & _); [|exact R].
    intros m Hm. right. cbn [timeout]. rewrite repeat_length in Hm.
    unfold elapsed, sleepMilliseconds, wrap_u32.
    destruct (Z.eq_dec (Z.of_nat m) 429496730) as [E | E].
    + rewrite E. reflexivity.
    + rewrite Z.mod_small; lia.
  - intro H.
    specialize (H (mkConfig 4294967295 true false "image.png")
                  (repeat (mkEnv [] [] None 0 None None) N) 0 0 0 1 N (Q N)).
    rewrite firstn_all2 in H by (rewrite repeat_length; lia).
    destruct (Never N) as (R & _).
    rewrite R in H.
    assert (F : true = false); [|discriminate F].
    apply H.
    + cbn [timeout]. lia.
    + cbn [timeout]. unfold sleepMilliseconds. lia.
    + rewrite repeat_length. lia.
Qed.

(** ** Reload *)

Lemma deliver_reload_none (sigs : list signal) (s : state) :
  forallb stop_signal sigs = true -> reload (deliver sigs s) = reload s.
Proof.
  revert s. induction sigs as [|sg sigs IH]; intros s H; cbn in *; [reflexivity|].
  apply andb_prop in H. destruct H as [H1 H2].
  unfold deliver in IH. rewrite (IH _ H2).
  destruct sg; cbn in *; congruence.
Qed.

Lemma switch_key_reload (c : Z) (s : state) :
  reload (fst (switch_key c s)) = reload s
  /\ image (fst (switch_key c s)) = image s.
Proof.
  unfold switch_key.
  repeat match goal with
         | |- context [if ?b then _ else _] => destruct b
         end; cbn; auto.
Qed.

Lemma apply_input_reload (cfg : config) (env : tick_env) (s : state) :
  reload (fst (apply_input cfg env s)) = reload s
  /\ image (fst (apply_input cfg env s)) = image s
  /\ loads (snd (apply_input cfg env s)) = 0%nat
  /\ content_swaps (snd (apply_input cfg env s)) = 0%nat.
Proof.
  unfold apply_input.
  destruct (interactive cfg); [|cbn; auto].
  destruct (keyboard env) as [c|]; [|cbn; auto].
  pose proof (switch_key_reload (tolower c) s) as (R & I).
  unfold handle_key.
  destruct (switch_key (tolower c) s) as [s1 [|]]; cbn [fst snd] in *;
    cbn; auto.
Qed.

(** Without a request, an iteration attempts no decode and leaves the image
    and the flag as they are. *)
Lemma tick_no_request (cfg : config) (env : tick_env) (s : state) :
  monitorChanges cfg = false -> reload s = false ->
  reload (fst (tick cfg env s)) = false
  /\ image (fst (tick cfg env s)) = image s
  /\ loads (snd (tick cfg env s)) = 0%nat.
Proof.
  intros Hm Hr. rewrite tick_unfold. cbn [fst snd].
  unfold check_file. rewrite Hm. cbn [andb fst snd].
  unfold apply_reload. rewrite Hr. cbn [fst snd app].
  destruct (apply_input_reload cfg env s) as (R & I & L & _).
  destruct (sleep_and_timeout_frame cfg (fst (apply_input cfg env s)))
    as (_ & _ & _ & I4 & R4).
  rewrite R4, I4, R, I.
  repeat split; try assumption.
  unfold loads in *. rewrite filter_app, length_app, L. reflexivity.
Qed.

Lemma session_no_request (cfg : config) (envs : list tick_env) (s : state) :
  monitorChanges cfg = false -> reload s = false ->
  Forall (fun env => no_reload_signal env = true) envs ->
  reload (fst (session cfg envs s)) = false
  /\ image (fst (session cfg envs s)) = image s
  /\ Forall (fun tr => loads tr = 0%nat) (snd (session cfg envs s)).
Proof.
  intros Hm. revert s.
  induction envs as [|env rest IH]; intros s Hr Hq; [cbn; auto|].
  inversion Hq as [|? ? Hq1 Hq2]; subst.
  unfold no_reload_signal in Hq1. apply andb_prop in Hq1.
  destruct Hq1 as [Hs _].
  rewrite session_cons.
  pose proof (deliver_reload_none _ s Hs) as R0.
  destruct (deliver_frame (signals env) s) as (_ & _ & _ & I0 & _).
  set (s0 := deliver (signals env) s) in *.
  destruct (run s0); cbn [fst snd].
  - destruct (tick_no_request cfg env s0 Hm ltac:(congruence)) as (R1 & I1 & L1).
    destruct (IH (fst (tick cfg env s0)) R1 Hq2) as (R2 & I2 & L2).
    repeat split; [assumption | congruence | now constructor].
  - repeat split; [congruence | congruence | constructor].
Qed.

(** C1, evaluated on the code.  A reload is requested by the signal while
    the file at the path cannot be decoded: the iteration attempts the
    decode, pauses for 200 ms and goes on ([run] stays true), but [reload]
    is false after it (line 315 cleared it before the attempt).  When the
    file is valid again in the iterations that follow, none of them
    attempts a decode, and the image stays the one loaded at startup. *)
Theorem C1_failed_reload_is_dropped :
  let cfg := mkConfig 0 true false "image.png" in
  let s := init_state cfg 0 0 0 1 in
  let failing := mkEnv [SIGTSTP] [] None 0 None None in
  reload (deliver (signals failing) s) = true
  /\ snd (session cfg [failing] s)
     = [[EvLoadPng "image.png" false; EvUsleep 200000; EvKeyPressed;
         EvUsleep 10000]]
  /\ run (fst (session cfg [failing] s)) = true
  /\ reload (fst (session cfg [failing] s)) = false
  /\ forall (n : nat) (img : Z),
       let valid := mkEnv [] [] (Some 0) 0 (Some img) None in
       image (fst (session cfg (failing :: repeat valid n) s)) = 1
       /\ Forall (fun tr => loads tr = 0%nat)
                 (tl (snd (session cfg (failing :: repeat valid n) s))).
Proof.
  cbv zeta. repeat split.
  - rewrite session_cons.
    match goal with
    | |- context [tick ?c ?e ?s0] => set (s1 := fst (tick c e s0))
    end.
    match goal with
    | |- context [if ?b then _ else _] => change b with true
    end.
    cbn [fst snd].
    assert (R1 : reload s1 = false) by reflexivity.
    assert (I1 : image s1 = 1) by reflexivity.
    destruct (session_no_request
                (mkConfig 0 true false "image.png")
                (repeat (mkEnv [] [] (Some 0) 0 (Some img) None) n) s1
                eq_refl R1) as (_ & I & _).
    { apply Forall_forall. intros e He. apply repeat_spec in He. now subst e. }
    congruence.
  - rewrite session_cons.
    match goal with
    | |- context [tick ?c ?e ?s0] => set (s1 := fst (tick c e s0))
    end.
    match goal with
    | |- context [if ?b then _ else _] => change b with true
    end.
    cbn [fst snd tl].
    assert (R1 : reload s1 = false) by reflexivity.
    destruct (session_no_request
                (mkConfig 0 true false "image.png")
                (repeat (mkEnv [] [] (Some 0) 0 (Some img) None) n) s1
                eq_refl R1) as (_ & _ & L).
    { apply Forall_forall. intros e He. apply repeat_spec in He. now subst e. }
    exact L.
Qed.

(** ** The calls of an iteration *)

Lemma check_file_trace (cfg : config) (env : tick_env) (s : state) :
  snd (check_file cfg env s) = []
  \/ snd (check_file cfg env s) = [EvStat (imagePath cfg)].
Proof.
  unfold check_file. destruct (monitorChanges cfg && _); cbn; auto.
Qed.

Lemma apply_reload_trace (cfg : config) (env : tick_env) (s : state) :
  snd (apply_reload cfg env s) = []
  \/ snd (apply_reload cfg env s)
     = [EvLoadPng (imagePath cfg) false; EvUsleep (200 * 1000)]
  \/ exists img,
       snd (apply_reload cfg env s)
       = [EvLoadPng (imagePath cfg) true;
          EvChangeSourceAndUpdateImageLayer img].
Proof.
  unfold apply_reload.
  destruct (reload s); [|now left].
  destruct (negb _); [|now left].
  destruct (png env) as [img|]; cbn [snd]; [|now (right; left)].
  right; right. now exists img.
Qed.

Lemma apply_input_trace (cfg : config) (env : tick_env) (s : state) :
  snd (apply_input cfg env s) = []
  \/ snd (apply_input cfg env s) = [EvKeyPressed]
  \/ exists x y,
       snd (apply_input cfg env s)
       = [EvKeyPressed; EvUpdateStart; EvMoveImageLayer x y;
          EvUpdateSubmitSync].
Proof.
  unfold apply_input.
  destruct (interactive cfg); [|now left].
  destruct (keyboard env) as [c|]; [|now (right; left)].
  unfold handle_key.
  destruct (switch_key (tolower c) s) as [s1 [|]]; cbn [snd].
  - right; right. now exists (xOffset s1), (yOffset s1).
  - now (right; left).
Qed.

Ltac tick_shapes cfg env s :=
  rewrite ?tick_unfold; cbn [fst snd];
  destruct (check_file_trace cfg env s) as [-> | ->];
  destruct (apply_reload_trace cfg env (fst (check_file cfg env s)))
    as [-> | [-> | [? ->]]];
  destruct (apply_input_trace cfg env
              (fst (apply_reload cfg env (fst (check_file cfg env s)))))
    as [-> | [-> | (? & ? & ->)]];
  unfold sleep_and_timeout; cbn [snd].



(** ** The order of a tick *)







(** With a timeout of 10 ms and 'd' on the keyboard: the first tick, at
    the entry of the loop, reads the key and moves the layer; the second
    one begins with the 10 ms of the sleep, finds the timeout reached and
    makes no call, though the key is pressed again. *)
Example spec_run_timeout :
  let cfg := mkConfig 10 true false "image.png" in
  let env := mkEnv [] [] None 0 None (Some 100) in
  let s := init_state cfg 0 0 0 1 in
  spec_tick cfg env 0 s
  = (mkState true false 1 0 1 0 0 0 1,
     Some [EvKeyPressed; EvUpdateStart; EvMoveImageLayer 1 0;
           EvUpdateSubmitSync; EvUsleep 10000])
  /\ spec_tick cfg env sleepMilliseconds (fst (spec_tick cfg env 0 s))
     = (mkState false false 1 0 1 10 0 0 1, None)
  /\ session cfg [env; env] s = spec_run cfg [env; env] 0 s
  /\ snd (session cfg [env; env] s)
     = [[EvKeyPressed; EvUpdateStart; EvMoveImageLayer 1 0;
         EvUpdateSubmitSync; EvUsleep 10000]].
Proof. repeat split. Qed.

(** ** The modification time *)

(** C4 as amended.  A query that fails returns what the buffer of [stat]
    held before the call, which is any value of the type of a timestamp;
    when the check of the file is due, [reload] is set unless that value
    happens to be the last modification time seen, and that value becomes
    the last modification time seen. *)
Theorem C4_failed_query (cfg : config) (env : tick_env) (s : state)
        (Hfail : stat_mtime env = None) :
  getFileModificationTime env = attr_garbage env
  /\ (monitorChanges cfg = true ->
      1000 <= wrap_u32 (currentTime s - lastModCheckTime s) ->
      reload (fst (check_file cfg env s))
      = reload s || negb (lastFileMod s =? attr_garbage env)
      /\ lastFileMod (fst (check_file cfg env s)) = attr_garbage env
      /\ snd (check_file cfg env s) = [EvStat (imagePath cfg)]).
Proof.
  assert (G : getFileModificationTime env = attr_garbage env).
  { unfold getFileModificationTime, stat. now rewrite Hfail. }
  split; [exact G|].
  intros Hm Hdue. unfold check_file. rewrite Hm, G.
  apply Z.leb_le in Hdue. rewrite Hdue. cbn [andb fst snd].
  cbn [lastFileMod set_lastModCheckTime].
  destruct (lastFileMod s =? attr_garbage env); cbn.
  - rewrite orb_false_r. auto.
  - rewrite orb_true_r. auto.
Qed.

(** C4 as the specification has it fails on the code: a failed query whose
    buffer holds 7 returns 7, as a successful query of a file modified at
    time 7 does, and the check of the file then sets [reload]; so it does
    in a session, where the iteration in which the query fails attempts a
    decode. *)
Lemma C4_failed_query_requests_reload :
  let cfg := mkConfig 0 true true "image.png" in
  let failed := mkEnv [] [] None 7 None None in
  let found := mkEnv [] [] (Some 7) 0 None None in
  let unchanged := mkEnv [] [] (Some 0) 0 (Some 1) None in
  let s := init_state cfg 0 0 0 1 in
  let s100 := fst (session cfg (repeat unchanged 100) s) in
  getFileModificationTime failed = getFileModificationTime found
  /\ reload s100 = false
  /\ reload (fst (check_file cfg failed s100)) = true
  /\ nth 100 (snd (session cfg (repeat unchanged 100 ++ [failed]) s)) []
     = [EvStat "image.png"; EvLoadPng "image.png" false; EvUsleep 200000;
        EvKeyPressed; EvUsleep 10000]
  /\ ~ spec_failed_query_is_distinguishable
  /\ ~ spec_failed_query_is_no_change.
Proof.
  cbv zeta. split; [reflexivity|]. split; [vm_compute; reflexivity|].
  split; [vm_compute; reflexivity|]. split; [vm_compute; reflexivity|].
  split.
  - intro H.
    apply (H (mkEnv [] [] None 7 None None) (mkEnv [] [] (Some 7) 0 None None) 7);
      reflexivity.
  - intro H.
    specialize (H (mkConfig 0 true true "image.png")
                  (mkEnv [] [] None 7 None None)
                  (set_currentTime 1000
                     (init_state (mkConfig 0 true true "image.png") 0 0 0 1))
                  eq_refl).
    vm_compute in H. discriminate H.
Qed.

(** ** Standard input as the source *)

Lemma tick_stdin (cfg : config) (env : tick_env) (s : state) :
  imagePath cfg = "-"%string ->
  reload (fst (tick cfg env s)) = false
  /\ image (fst (tick cfg env s)) = image s
  /\ loads (snd (tick cfg env s)) = 0%nat
  /\ content_swaps (snd (tick cfg env s)) = 0%nat.
Proof.
  intro Hp. rewrite tick_unfold. cbn [fst snd].
  destruct (check_file_frame cfg env s) as (_ & _ & _ & I1 & _).
  set (s1 := fst (check_file cfg env s)) in *.
  assert (A : reload (fst (apply_reload cfg env s1)) = false
              /\ image (fst (apply_reload cfg env s1)) = image s1
              /\ snd (apply_reload cfg env s1) = []).
  { unfold apply_reload. rewrite Hp. cbn [String.eqb Ascii.eqb Bool.eqb negb].
    destruct (reload s1) eqn:R; cbn; auto. }
  destruct A as (R2 & I2 & T2).
  set (s2 := fst (apply_reload cfg env s1)) in *.
  destruct (apply_input_reload cfg env s2) as (R3 & I3 & L3 & C3).
  destruct (sleep_and_timeout_frame cfg (fst (apply_input cfg env s2)))
    as (_ & _ & _ & I4 & R4).
  rewrite R4, I4, R3, I3, T2.
  repeat split; try congruence.
  - destruct (check_file_trace cfg env s) as [-> | ->];
      unfold loads in *; cbn [app filter List.length];
      rewrite filter_app, length_app, L3; reflexivity.
  - destruct (check_file_trace cfg env s) as [-> | ->];
      unfold content_swaps in *; cbn [app filter List.length];
      rewrite filter_app, length_app, C3; reflexivity.
Qed.

(** C5 as amended.  In a session whose source is standard input, a request
    that the signal or the check of the file has put in [reload] has no
    effect: no iteration attempts a decode or swaps the content, and the
    image stays the one read at startup. *)
Theorem C5_stdin_no_reload (cfg : config) (envs : list tick_env)
        (s : state) (Hstdin : imagePath cfg = "-"%string) :
  image (fst (session cfg envs s)) = image s
  /\ Forall (fun tr => loads tr = 0%nat /\ content_swaps tr = 0%nat)
            (snd (session cfg envs s)).
Proof.
  split.
  - revert s. induction envs as [|env rest IH]; intro s; [reflexivity|].
    rewrite session_cons.
    destruct (deliver_frame (signals env) s) as (_ & _ & _ & I0 & _).
    destruct (run (deliver (signals env) s)); cbn [fst]; [|exact I0].
    rewrite IH.
    destruct (tick_stdin cfg env (deliver (signals env) s) Hstdin)
      as (_ & I1 & _).
    congruence.
  - revert s. induction envs as [|env rest IH]; intro s; [constructor|].
    rewrite session_cons.
    destruct (run (deliver (signals env) s)); cbn [snd]; [|constructor].
    constructor; [|apply IH].
    destruct (tick_stdin cfg env (deliver (signals env) s) Hstdin)
      as (_ & _ & L & C).
    now split.
Qed.

(** C5 as the specification has it fails on the code: with standard input
    as the source, the handler of the reload signal sets [reload], and so
    does the check of the file under [-m], which queries the path "-"
    (here after 100 iterations, when the check is due, with a query that
    fails). *)
Lemma C5_stdin_reload_flag_is_set :
  let cfg := mkConfig 0 true true "-" in
  let quiet := mkEnv [] [] None 0 None None in
  let failed := mkEnv [] [] None 7 None None in
  let s := init_state cfg 0 0 0 1 in
  reload s = false
  /\ reload (signalHandler SIGTSTP s) = true
  /\ reload (fst (session cfg (repeat quiet 100) s)) = false
  /\ reload (fst (check_file cfg failed
                    (fst (session cfg (repeat quiet 100) s)))) = true
  /\ nth 100 (snd (session cfg (repeat quiet 100 ++ [failed]) s)) []
     = [EvStat "-"; EvKeyPressed; EvUsleep 10000]
  /\ ~ spec_stdin_never_sets_reload.
Proof.
  cbv zeta. split; [reflexivity|]. split; [reflexivity|].
  split; [vm_compute; reflexivity|]. split; [vm_compute; reflexivity|].
  split; [vm_compute; reflexivity|].
  intro H.
  destruct (H (mkConfig 0 true true "-") eq_refl) as (Hsig & _).
  specialize (Hsig (init_state (mkConfig 0 true true "-") 0 0 0 1)).
  discriminate Hsig.
Qed.

(** ** The theorems at concrete sessions *)

Lemma init_reachable (cfg : config) :
  reachable cfg (init_state cfg 0 0 0 1).
Proof. apply reach_init; unfold in_s32; lia. Defined.

Lemma C4_failed_query_witness :
  stat_mtime (mkEnv [] [] None 7 None None) = None
  /\ getFileModificationTime (mkEnv [] [] None 7 None None) = 7.
Proof.
  split; [reflexivity|].
  exact (proj1 (C4_failed_query (mkConfig 0 true true "image.png")
                                (mkEnv [] [] None 7 None None)
                                (init_state (mkConfig 0 true true "image.png")
                                            0 0 0 1)
                                eq_refl)).
Defined.

Lemma C5_stdin_no_reload_witness :
  imagePath (mkConfig 0 true true "-") = "-"%string
  /\ image (fst (session (mkConfig 0 true true "-")
                         [mkEnv [SIGTSTP] [] None 7 (Some 2) None;
                          mkEnv [] [SIGTSTP] (Some 3) 0 (Some 2) (Some 100)]
                         (init_state (mkConfig 0 true true "-") 0 0 0 1)))
     = 1.
Proof.
  split; [reflexivity|].
  exact (proj1 (C5_stdin_no_reload
                  (mkConfig 0 true true "-")
                  [mkEnv [SIGTSTP] [] None 7 (Some 2) None;
                   mkEnv [] [SIGTSTP] (Some 3) 0 (Some 2) (Some 100)]
                  (init_state (mkConfig 0 true true "-") 0 0 0 1)
                  eq_refl)).
Defined.

Lemma C6_step_ladder_witness :
  reachable (mkConfig 0 true false "image.png")
            (init_state (mkConfig 0 true false "image.png") 0 0 0 1)
  /\ steps_seen (mkConfig 0 true false "image.png")
                (repeat (mkEnv [] [] None 0 None (Some 43)) 4)
                (init_state (mkConfig 0 true false "image.png") 0 0 0 1)
     = [5; 10; 20; 20].
Proof.
  split; [apply init_reachable|].
  destruct (C6_step_ladder (mkConfig 0 true false "image.png")
                           (init_state (mkConfig 0 true false "image.png")
                                       0 0 0 1)
                           (init_reachable _)) as (_ & _ & H).
  apply H; reflexivity.
Defined.

Lemma C7_timeout_in_range_witness :
  Forall (fun env => no_stop env = true)
         (repeat (mkEnv [SIGTSTP] [] None 0 None (Some 100)) 8)
  /\ iterations (mkConfig 50 true false "image.png")
                (repeat (mkEnv [SIGTSTP] [] None 0 None (Some 100)) 8)
                (init_state (mkConfig 50 true false "image.png") 0 0 0 1)
     = 5%nat
  /\ run (fst (session (mkConfig 50 true false "image.png")
                       (repeat (mkEnv [SIGTSTP] [] None 0 None (Some 100)) 8)
                       (init_state (mkConfig 50 true false "image.png")
                                   0 0 0 1)))
     = false.
Proof.
  assert (H : Forall (fun env => no_stop env = true)
                     (repeat (mkEnv [SIGTSTP] [] None 0 None (Some 100)) 8))
    by (repeat constructor).
  split; [exact H|].
  destruct (C7_timeout_in_range
              (mkConfig 50 true false "image.png")
              (repeat (mkEnv [SIGTSTP] [] None 0 None (Some 100)) 8)
              0 0 0 1 H) as (_ & Hfifty & _).
  apply Hfifty; [reflexivity | cbn; lia].
Defined.

Lemma C8_position_signed_sum_witness :
  reachable (mkConfig 0 true false "image.png")
            (init_state (mkConfig 0 true false "image.png") 0 0 0 1)
  /\ xOffset (fst (session (mkConfig 0 true false "image.png")
                           [mkEnv [] [] None 0 None (Some 100);
                            mkEnv [] [] None 0 None (Some 43);
                            mkEnv [] [] None 0 None (Some 68);
                            mkEnv [] [] None 0 None (Some 119)]
                           (init_state (mkConfig 0 true false "image.png")
                                       0 0 0 1)))
     = 6
  /\ yOffset (fst (session (mkConfig 0 true false "image.png")
                           [mkEnv [] [] None 0 None (Some 100);
                            mkEnv [] [] None 0 None (Some 43);
                            mkEnv [] [] None 0 None (Some 68);
                            mkEnv [] [] None 0 None (Some 119)]
                           (init_state (mkConfig 0 true false "image.png")
                                       0 0 0 1)))
     = -5.
Proof.
  split; [apply init_reachable|].
  destruct (C8_position_signed_sum
              (mkConfig 0 true false "image.png")
              [mkEnv [] [] None 0 None (Some 100);
               mkEnv [] [] None 0 None (Some 43);
               mkEnv [] [] None 0 None (Some 68);
               mkEnv [] [] None 0 None (Some 119)]
              (init_state (mkConfig 0 true false "image.png") 0 0 0 1)
              (init_reachable _) eq_refl) as (Hx & Hy & _).
  split; [exact Hx | exact Hy].
Defined.

Lemma C10_not_interactive_witness :
  interactive (mkConfig 0 false false "image.png") = false
  /\ xOffset (fst (session (mkConfig 0 false false "image.png")
                           [mkEnv [SIGTSTP] [] None 0 (Some 2) (Some 100);
                            mkEnv [] [] None 0 None (Some 43)]
                           (init_state (mkConfig 0 false false "image.png")
                                       3 4 0 1)))
     = 3.
Proof.
  split; [reflexivity|].
  exact (proj1 (C10_not_interactive
                  (mkConfig 0 false false "image.png")
                  [mkEnv [SIGTSTP] [] None 0 (Some 2) (Some 100);
                   mkEnv [] [] None 0 None (Some 43)]
                  (init_state (mkConfig 0 false false "image.png") 3 4 0 1)
                  eq_refl)).
Defined.

(** * Further properties of the loop *)

(** ** What the parts of an iteration leave of the file check *)

Lemma deliver_check_frame (sigs : list signal) (s : state) :
  lastModCheckTime (deliver sigs s) = lastModCheckTime s
  /\ lastFileMod (deliver sigs s) = lastFileMod s.
Proof.
  revert s. induction sigs as [|sg sigs IH]; intro s; cbn; [auto|].
  destruct (IH (signalHandler sg s)) as (A & B). unfold deliver in *.
  rewrite A, B. destruct sg; cbn; auto.
Qed.

Lemma switch_key_check_frame (c : Z) (s : state) :
  lastModCheckTime (fst (switch_key c s)) = lastModCheckTime s
  /\ lastFileMod (fst (switch_key c s)) = lastFileMod s.
Proof.
  unfold switch_key.
  repeat match goal with
         | |- context [if ?b then _ else _] => destruct b
         end; cbn; auto.
Qed.

Lemma apply_input_check_frame (cfg : config) (env : tick_env) (s : state) :
  lastModCheckTime (fst (apply_input cfg env s)) = lastModCheckTime s
  /\ lastFileMod (fst (apply_input cfg env s)) = lastFileMod s
  /\ polls (snd (apply_input cfg env s)) = 0%nat.
Proof.
  destruct (apply_input_trace cfg env s) as [E | [E | (x & y & E)]];
    rewrite E; unfold apply_input;
    (destruct (interactive cfg); [|cbn; auto]);
    (destruct (keyboard env) as [c|]; [|cbn; auto]);
    pose proof (handle_key_fst c s) as F;
    destruct (handle_key c s) as [s1 tr]; cbn [fst] in *; subst s1;
    destruct (switch_key_check_frame (tolower c) s); cbn; auto.
Qed.

Lemma apply_reload_check_frame (cfg : config) (env : tick_env) (s : state) :
  lastModCheckTime (fst (apply_reload cfg env s)) = lastModCheckTime s
  /\ lastFileMod (fst (apply_reload cfg env s)) = lastFileMod s
  /\ polls (snd (apply_reload cfg env s)) = 0%nat.
Proof.
  unfold apply_reload.
  destruct (reload s); [|cbn; auto].
  destruct (negb _); [|cbn; auto].
  destruct (deliver_check_frame (signals_loading env) (set_reload false s))
    as (A & B).
  destruct (png env); cbn; auto.
Qed.

Lemma sleep_check_frame (cfg : config) (s : state) :
  lastModCheckTime (fst (sleep_and_timeout cfg s)) = lastModCheckTime s
  /\ lastFileMod (fst (sleep_and_timeout cfg s)) = lastFileMod s.
Proof.
  unfold sleep_and_timeout. cbn [fst].
  destruct (negb _ && _); cbn; auto.
Qed.

Lemma polls_app (t1 t2 : list event) :
  polls (t1 ++ t2) = (polls t1 + polls t2)%nat.
Proof. unfold polls. now rewrite filter_app, length_app. Qed.

(** The file check of an iteration is that of its first part. *)
Lemma tick_check_view (cfg : config) (env : tick_env) (s : state) :
  lastModCheckTime (fst (tick cfg env s))
  = lastModCheckTime (fst (check_file cfg env s))
  /\ lastFileMod (fst (tick cfg env s)) = lastFileMod (fst (check_file cfg env s))
  /\ polls (snd (tick cfg env s)) = polls (snd (check_file cfg env s)).
Proof.
  rewrite tick_unfold. cbn [fst snd].
  set (s1 := fst (check_file cfg env s)).
  destruct (apply_reload_check_frame cfg env s1) as (A2 & B2 & P2).
  set (s2 := fst (apply_reload cfg env s1)) in *.
  destruct (apply_input_check_frame cfg env s2) as (A3 & B3 & P3).
  set (s3 := fst (apply_input cfg env s2)) in *.
  destruct (sleep_check_frame cfg s3) as (A4 & B4).
  rewrite !polls_app, P2, P3.
  repeat split; try congruence.
  unfold sleep_and_timeout. cbn. lia.
Qed.

Lemma wrap_u32_sub_add (a b d : Z) :
  wrap_u32 (wrap_u32 (a + d) - b) = wrap_u32 (wrap_u32 (a - b) + d).
Proof.
  unfold wrap_u32.
  rewrite Zminus_mod_idemp_l, Zplus_mod_idemp_l. f_equal. lia.
Qed.

(** How the time since the last check moves over an iteration, and whether
    the iteration queries the file. *)
Lemma tick_since_check (cfg : config) (env : tick_env) (s : state) :
  monitorChanges cfg = true ->
  since_check (fst (tick cfg env s))
  = (if 1000 <=? since_check s then 10
     else wrap_u32 (since_check s + 10))
  /\ polls (snd (tick cfg env s))
     = if 1000 <=? since_check s then 1%nat else 0%nat.
Proof.
  intro Hm.
  destruct (tick_check_view cfg env s) as (A & _ & P).
  unfold since_check at 1. rewrite tick_time, A, P.
  unfold check_file. rewrite Hm. cbn [andb].
  fold (since_check s).
  destruct (1000 <=? since_check s); cbn [fst snd].
  - split; [|reflexivity].
    replace (lastModCheckTime _) with (currentTime s)
      by (destruct (lastFileMod _ =? _); reflexivity).
    rewrite wrap_u32_sub_add. unfold wrap_u32, sleepMilliseconds.
    rewrite Z.sub_diag. reflexivity.
  - split; [|reflexivity].
    rewrite wrap_u32_sub_add. reflexivity.
Qed.

Lemma tick_no_monitor (cfg : config) (env : tick_env) (s : state) :
  monitorChanges cfg = false -> polls (snd (tick cfg env s)) = 0%nat.
Proof.
  intro Hm. destruct (tick_check_view cfg env s) as (_ & _ & ->).
  unfold check_file. rewrite Hm. reflexivity.
Qed.

(** ** The cadence of the file check *)

Lemma due_after_check (k : nat) :
  ((99 <=? k)%nat && ((k - 99) mod 100 =? 0)%nat)
  = ((S k) mod 100 =? 0)%nat.
Proof.
  destruct (Nat.leb_spec 99 k) as [H | H]; cbn [andb].
  - replace (S k) with ((k - 99) + 1 * 100)%nat by lia.
    now rewrite Nat.Div0.mod_add.
  - rewrite (Nat.mod_small (S k)) by lia. reflexivity.
Qed.

Lemma due_from_start (k : nat) :
  ((100 <=? k)%nat && ((k - 100) mod 100 =? 0)%nat) = poll_due k.
Proof.
  unfold poll_due.
  destruct (Nat.leb_spec 100 k) as [H | H]; cbn [andb].
  - replace k with ((k - 100) + 1 * 100)%nat at 2 3 by lia.
    rewrite Nat.Div0.mod_add.
    destruct (Nat.ltb_spec 0 (k - 100 + 1 * 100)); [reflexivity | lia].
  - destruct k as [|k]; [reflexivity|].
    rewrite (Nat.mod_small (S k)) by lia.
    now rewrite andb_false_r.
Qed.

Lemma session_polls (cfg : config) (envs : list tick_env) (s : state)
      (c k : nat) :
  monitorChanges cfg = true ->
  (c <= 100)%nat -> since_check s = 1000 - 10 * Z.of_nat c ->
  (k < iterations cfg envs s)%nat ->
  polls (nth k (snd (session cfg envs s)) [])
  = if (c <=? k)%nat && ((k - c) mod 100 =? 0)%nat then 1%nat else 0%nat.
Proof.
  intro Hm. unfold iterations. revert s c k.
  induction envs as [|env rest IH]; intros s c k Hc Hs Hk; [cbn in Hk; lia|].
  rewrite session_cons in *.
  assert (Hs0 : since_check (deliver (signals env) s) = since_check s).
  { unfold since_check.
    destruct (deliver_frame (signals env) s) as (_ & _ & _ & _ & ->).
    now destruct (deliver_check_frame (signals env) s) as (-> & _). }
  set (s0 := deliver (signals env) s) in *.
  destruct (run s0); [|cbn in Hk; lia].
  cbn [fst snd List.length] in *.
  destruct (tick_since_check cfg env s0 Hm) as (S1 & P1).
  rewrite Hs0, Hs in S1, P1.
  destruct k as [|k]; cbn [nth].
  - rewrite P1. destruct c as [|c].
    + reflexivity.
    + destruct (Z.leb_spec 1000 (1000 - 10 * Z.of_nat (S c))); [lia|].
      reflexivity.
  - destruct c as [|c].
    + change (1000 <=? 1000 - 10 * Z.of_nat 0) with true in S1.
      rewrite (IH (fst (tick cfg env s0)) 99%nat k); [|lia|rewrite S1; lia|lia].
      rewrite due_after_check. cbn [Nat.leb andb]. now rewrite Nat.sub_0_r.
    + destruct (Z.leb_spec 1000 (1000 - 10 * Z.of_nat (S c))); [lia|].
      rewrite (IH (fst (tick cfg env s0)) c k); [reflexivity|lia| |lia].
      rewrite S1. unfold wrap_u32. rewrite Z.mod_small; lia.
Qed.

(** X1.  With [-m], the loop queries the modification time of the file
    once in every hundredth iteration (once per second of its clock), the
    first time in iteration 100 (counted from 0) and not at its start;
    without [-m] it never does.  This holds in every session, whatever
    signals, keys and reloads occur, and also when the 32-bit clock wraps. *)
Theorem X1_poll_cadence (cfg : config) (envs : list tick_env)
        (x y mtime img : Z) (k : nat)
        (Hk : (k < iterations cfg envs (init_state cfg x y mtime img))%nat) :
  polls (nth k (snd (session cfg envs (init_state cfg x y mtime img))) [])
  = if monitorChanges cfg && poll_due k then 1%nat else 0%nat.
Proof.
  destruct (monitorChanges cfg) eqn:Hm; cbn [andb].
  - rewrite (session_polls cfg envs _ 100 k Hm); [|lia|reflexivity|exact Hk].
    now rewrite due_from_start.
  - clear Hk. generalize (init_state cfg x y mtime img). revert k.
    induction envs as [|env rest IH]; intros k s; [now destruct k|].
    rewrite session_cons.
    destruct (run (deliver (signals env) s)); cbn [snd]; [|now destruct k].
    destruct k as [|k]; cbn [nth]; [now apply tick_no_monitor | apply IH].
Qed.

Lemma X1_poll_cadence_witness :
  Nat.lt 100 (iterations (mkConfig 0 true true "image.png")
                     (repeat (mkEnv [SIGTSTP] [] (Some 5) 0 None (Some 100)) 201)
                     (init_state (mkConfig 0 true true "image.png") 0 0 0 1))
  /\ polls (nth 100
                (snd (session (mkConfig 0 true true "image.png")
                        (repeat (mkEnv [SIGTSTP] [] (Some 5) 0 None (Some 100))
                                201)
                        (init_state (mkConfig 0 true true "image.png")
                                    0 0 0 1)))
                [])
     = 1%nat.
Proof.
  assert (H : Nat.lt 100 (iterations (mkConfig 0 true true "image.png")
                     (repeat (mkEnv [SIGTSTP] [] (Some 5) 0 None (Some 100)) 201)
                     (init_state (mkConfig 0 true true "image.png") 0 0 0 1)))
    by (vm_compute; unfold Nat.lt; lia).
  split; [exact H|].
  exact (X1_poll_cadence (mkConfig 0 true true "image.png")
           (repeat (mkEnv [SIGTSTP] [] (Some 5) 0 None (Some 100)) 201)
           0 0 0 1 100 H).
Defined.

(** ** Signals *)

Lemma deliver_flags (sigs : list signal) (s : state) :
  deliver sigs s
  = mkState (run s && negb (existsb stop_signal sigs))
            (reload s || existsb reload_signal sigs)
            (xOffset s) (yOffset s) (step s) (currentTime s)
            (lastModCheckTime s) (lastFileMod s) (image s).
Proof.
  revert s. induction sigs as [|sg sigs IH]; intro s.
  - destruct s as [r l ? ? ? ? ? ? ?]. cbn. now rewrite andb_true_r, orb_false_r.
  - change (deliver (sg :: sigs) s) with (deliver sigs (signalHandler sg s)).
    rewrite IH. destruct s as [r l ? ? ? ? ? ? ?].
    destruct sg; cbn; f_equal;
      rewrite ?andb_false_r, ?orb_true_r, ?andb_true_r, ?orb_false_r;
      try reflexivity; now destruct l.
Qed.

Lemma existsb_same_elements (f : signal -> bool) (l l' : list signal) :
  (forall sg, In sg l <-> In sg l') -> existsb f l = existsb f l'.
Proof.
  intro H. apply eq_true_iff_eq. rewrite !existsb_exists.
  split; intros (sg & Hin & Hf); exists sg; split; auto; now apply H.
Qed.

(** X2.  The two flags are latches.  After the handler has run for a list
    of signals, [run] is false when it was false or the list holds a stop
    signal, [reload] is true when it was true or the list holds the reload
    signal, and nothing else has changed; so two lists with the same
    signals, in any order and any number of times, leave the same state. *)
Theorem X2_signals_are_latches (sigs : list signal) (s : state) :
  run (deliver sigs s) = run s && negb (existsb stop_signal sigs)
  /\ reload (deliver sigs s) = reload s || existsb reload_signal sigs
  /\ set_run (run s) (set_reload (reload s) (deliver sigs s)) = s
  /\ forall sigs',
       (forall sg, In sg sigs <-> In sg sigs') ->
       deliver sigs' s = deliver sigs s.
Proof.
  rewrite deliver_flags. cbn. repeat split.
  - now destruct s.
  - intros sigs' H. rewrite deliver_flags.
    now rewrite (existsb_same_elements stop_signal sigs sigs' H),
                (existsb_same_elements reload_signal sigs sigs' H).
Qed.

(** ** Why the loop stops *)

Lemma check_file_reload_seen (cfg : config) (env : tick_env) (s : state) :
  reload (fst (check_file cfg env s)) = reload_seen cfg env s.
Proof.
  unfold check_file, reload_seen, since_check.
  destruct (monitorChanges cfg); cbn [andb]; [|now rewrite orb_false_r].
  destruct (1000 <=? _); cbn [andb fst]; [|now rewrite orb_false_r].
  cbn [lastFileMod set_lastModCheckTime].
  destruct (lastFileMod s =? getFileModificationTime env); cbn.
  - now rewrite orb_false_r.
  - now rewrite orb_true_r.
Qed.

Lemma apply_reload_run_exact (cfg : config) (env : tick_env) (s : state) :
  run (fst (apply_reload cfg env s))
  = run s && negb (reload s && negb (String.eqb (imagePath cfg) "-")
                   && existsb stop_signal (signals_loading env)).
Proof.
  unfold apply_reload.
  destruct (reload s); cbn [andb negb]; [|now rewrite andb_true_r].
  destruct (negb (String.eqb (imagePath cfg) "-")); cbn [andb negb fst];
    [|now rewrite andb_true_r].
  rewrite deliver_flags. destruct (png env); reflexivity.
Qed.

Lemma switch_key_run_exact (c : Z) (s : state) :
  run (fst (switch_key c s)) = run s && negb (c =? 27).
Proof.
  unfold switch_key.
  destruct (c =? 27); cbn [fst negb]; [now rewrite andb_false_r|].
  rewrite andb_true_r.
  repeat match goal with
         | |- context [if ?b then _ else _] => destruct b
         end; reflexivity.
Qed.

Lemma apply_input_run_exact (cfg : config) (env : tick_env) (s : state) :
  run (fst (apply_input cfg env s))
  = run s && negb (interactive cfg && escape_key env).
Proof.
  unfold apply_input, escape_key.
  destruct (interactive cfg); cbn [andb negb fst]; [|now rewrite andb_true_r].
  destruct (keyboard env) as [c|]; cbn [fst negb]; [|now rewrite andb_true_r].
  pose proof (handle_key_fst c s) as E.
  destruct (handle_key c s) as [s1 tr]. cbn [fst] in *. subst s1.
  apply switch_key_run_exact.
Qed.

Lemma tick_run_exact (cfg : config) (env : tick_env) (s : state) :
  run (fst (tick cfg env s))
  = run s
    && negb (reload_seen cfg env s
             && negb (String.eqb (imagePath cfg) "-")
             && existsb stop_signal (signals_loading env))
    && negb (interactive cfg && escape_key env)
    && negb (timeout_fires cfg s).
Proof.
  rewrite tick_unfold. cbn [fst].
  destruct (check_file_frame cfg env s) as (_ & _ & _ & _ & T1 & R1).
  pose proof (check_file_reload_seen cfg env s) as L1.
  set (s1 := fst (check_file cfg env s)) in *.
  pose proof (apply_reload_run_exact cfg env s1) as R2.
  destruct (apply_reload_frame cfg env s1) as (_ & _ & _ & T2).
  set (s2 := fst (apply_reload cfg env s1)) in *.
  pose proof (apply_input_run_exact cfg env s2) as R3.
  pose proof (apply_input_time cfg env s2) as T3.
  set (s3 := fst (apply_input cfg env s2)) in *.
  unfold sleep_and_timeout, timeout_fires. cbn [fst currentTime set_currentTime].
  replace (currentTime s3) with (currentTime s) by congruence.
  rewrite <- R1, <- L1, <- R2, <- R3.
  destruct (negb (timeout cfg =? 0) && _); cbn.
  - now rewrite andb_false_r.
  - now rewrite andb_true_r.
Qed.

(** X3.  An iteration leaves [run] true exactly when it was true and none
    of four things happened in it: a stop signal was handled during a
    decode, the escape character was read with interactivity on, the
    timeout was reached by the time after the sleep, or a stop signal was
    handled at any other point of the iteration.  In particular [run]
    never goes back from false to true. *)
Theorem X3_why_the_loop_stops (cfg : config) (env : tick_env)
        (late : list signal) (s : state) :
  run (iteration_end cfg env late s)
  = run s
    && negb (reload_seen cfg env s
             && negb (String.eqb (imagePath cfg) "-")
             && existsb stop_signal (signals_loading env))
    && negb (interactive cfg && escape_key env)
    && negb (timeout_fires cfg s)
    && negb (existsb stop_signal late).
Proof.
  unfold iteration_end. rewrite deliver_flags. cbn [run].
  now rewrite tick_run_exact.
Qed.

(** ** The reload part, exactly *)

Lemma apply_reload_exact (cfg : config) (env : tick_env) (s : state) :
  let attempt := reload s && negb (String.eqb (imagePath cfg) "-") in
  loads (snd (apply_reload cfg env s)) = (if attempt then 1 else 0)%nat
  /\ failed_loads (snd (apply_reload cfg env s))
     = (if attempt && match png env with None => true | Some _ => false end
        then 1 else 0)%nat
  /\ content_swaps (snd (apply_reload cfg env s))
     = (if attempt && match png env with None => false | Some _ => true end
        then 1 else 0)%nat
  /\ reload (fst (apply_reload cfg env s))
     = attempt && match png env with None => true | Some _ => false end
       && existsb reload_signal (signals_loading env)
  /\ image (fst (apply_reload cfg env s))
     = (if attempt then match png env with Some img => img | None => image s end
        else image s).
Proof.
  cbv zeta. unfold apply_reload.
  destruct (reload s) eqn:R; cbn [andb]; [|cbn; rewrite R; auto 7].
  destruct (negb (String.eqb (imagePath cfg) "-")); [|cbn; auto 7].
  rewrite deliver_flags.
  destruct (png env) as [img|]; cbn; auto 7.
Qed.

Lemma loads_app (t1 t2 : list event) :
  loads (t1 ++ t2) = (loads t1 + loads t2)%nat.
Proof. unfold loads. now rewrite filter_app, length_app. Qed.

Lemma failed_loads_app (t1 t2 : list event) :
  failed_loads (t1 ++ t2) = (failed_loads t1 + failed_loads t2)%nat.
Proof. unfold failed_loads. now rewrite filter_app, length_app. Qed.

Lemma check_file_calls (cfg : config) (env : tick_env) (s : state) :
  loads (snd (check_file cfg env s)) = 0%nat
  /\ failed_loads (snd (check_file cfg env s)) = 0%nat.
Proof.
  destruct (check_file_trace cfg env s) as [-> | ->]; cbn; auto.
Qed.

Lemma apply_input_calls (cfg : config) (env : tick_env) (s : state) :
  failed_loads (snd (apply_input cfg env s)) = 0%nat.
Proof.
  destruct (apply_input_trace cfg env s) as [-> | [-> | (x & y & ->)]];
    cbn; auto.
Qed.

(** X4.  What the reload part of an iteration does, exactly.  A decode is
    attempted once when a request is seen (the flag, or a changed
    modification time found by this iteration's check) and the source is
    not standard input, and otherwise not at all; the content is swapped
    once when that decode succeeds and the image is then the decoded one;
    without an attempt the image is unchanged.  Where the iteration ends,
    [reload] is true in two cases only: the decode failed and a reload
    signal was handled while it ran, or a reload signal was handled after
    the reload part.  A reload signal handled during a successful decode is
    dropped. *)
Theorem X4_reload_exact (cfg : config) (env : tick_env) (late : list signal)
        (s : state) :
  let attempt :=
    reload_seen cfg env s && negb (String.eqb (imagePath cfg) "-") in
  let failed := match png env with None => true | Some _ => false end in
  loads (snd (tick cfg env s)) = (if attempt then 1 else 0)%nat
  /\ failed_loads (snd (tick cfg env s))
     = (if attempt && failed then 1 else 0)%nat
  /\ content_swaps (snd (tick cfg env s))
     = (if attempt && negb failed then 1 else 0)%nat
  /\ reload (iteration_end cfg env late s)
     = attempt && failed && existsb reload_signal (signals_loading env)
       || existsb reload_signal late
  /\ (forall img, attempt = true -> png env = Some img ->
      image (iteration_end cfg env late s) = img)
  /\ (attempt = false -> image (iteration_end cfg env late s) = image s).
Proof.
  cbv zeta. unfold iteration_end. rewrite deliver_flags. cbn [reload image].
  rewrite tick_unfold. cbn [fst snd].
  destruct (check_file_frame cfg env s) as (_ & _ & _ & I1 & _).
  destruct (check_file_calls cfg env s) as (L1 & F1).
  destruct (check_file_events cfg env s) as (_ & _ & C1).
  pose proof (check_file_reload_seen cfg env s) as R1.
  set (s1 := fst (check_file cfg env s)) in *.
  destruct (apply_reload_exact cfg env s1) as (L2 & F2 & C2 & R2 & I2).
  rewrite R1, I1 in *.
  set (s2 := fst (apply_reload cfg env s1)) in *.
  destruct (apply_input_reload cfg env s2) as (R3 & I3 & L3 & C3).
  pose proof (apply_input_calls cfg env s2) as F3.
  set (s3 := fst (apply_input cfg env s2)) in *.
  destruct (sleep_and_timeout_frame cfg s3) as (_ & _ & _ & I4 & R4).
  rewrite !loads_app, !failed_loads_app, !content_swaps_app.
  rewrite L1, L2, L3, F1, F2, F3, C1, C2, C3, R4, R3, R2, I4, I3, I2.
  unfold sleep_and_timeout. cbn [snd].
  destruct (png env) as [i|]; repeat split; cbn; try lia;
    destruct (reload_seen cfg env s && _); try reflexivity;
    try discriminate; try congruence.
Qed.

(** ** The clock and the sleeps *)

Lemma slept_app (t1 t2 : list event) :
  slept (t1 ++ t2) = slept t1 + slept t2.
Proof.
  unfold slept. induction t1 as [|ev t1 IH]; cbn; [reflexivity|].
  destruct ev; cbn; rewrite IH; lia.
Qed.

Lemma tick_slept (cfg : config) (env : tick_env) (s : state) :
  slept (snd (tick cfg env s))
  = 10000 + 200000 * Z.of_nat (failed_loads (snd (tick cfg env s))).
Proof. tick_shapes cfg env s; reflexivity. Qed.

Lemma session_clock (cfg : config) (envs : list tick_env) (s : state)
      (a : Z) :
  currentTime s = wrap_u32 a ->
  currentTime (fst (session cfg envs s))
  = wrap_u32 (a + 10 * Z.of_nat (iterations cfg envs s))
  /\ slept (List.concat (snd (session cfg envs s)))
     = 10000 * Z.of_nat (iterations cfg envs s)
       + 200000 * Z.of_nat (failed_loads (List.concat (snd (session cfg envs s)))).
Proof.
  unfold iterations. revert s a.
  induction envs as [|env rest IH]; intros s a Ha.
  - cbn. rewrite Z.add_0_r. auto.
  - rewrite session_cons.
    destruct (deliver_frame (signals env) s) as (_ & _ & _ & _ & T0).
    set (s0 := deliver (signals env) s) in *.
    destruct (run s0); cbn [fst snd List.length List.concat].
    + pose proof (tick_time cfg env s0) as T1.
      rewrite T0, Ha in T1. unfold sleepMilliseconds in T1.
      assert (T1' : currentTime (fst (tick cfg env s0)) = wrap_u32 (a + 10)).
      { rewrite T1. unfold wrap_u32. now rewrite Zplus_mod_idemp_l. }
      destruct (IH (fst (tick cfg env s0)) (a + 10) T1') as (A & B).
      rewrite A, slept_app, failed_loads_app, B, tick_slept.
      split; [f_equal; lia | lia].
    + cbn. rewrite Z.add_0_r. split; [congruence | reflexivity].
Qed.

(** X6.  The clock of the loop counts iterations, not time: when a session
    that started at 0 is left, the elapsed time is 10 ms for each iteration
    that ran (modulo 2^32), while the time slept is 10 ms for each
    iteration and 200 ms more for each decode that failed; the pauses after
    failed decodes do not count towards the timeout. *)
Theorem X6_clock_counts_iterations (cfg : config) (envs : list tick_env)
        (x y mtime img : Z) :
  let r := session cfg envs (init_state cfg x y mtime img) in
  let n := iterations cfg envs (init_state cfg x y mtime img) in
  currentTime (fst r) = elapsed n
  /\ slept (List.concat (snd r))
     = 10000 * Z.of_nat n
       + 200000 * Z.of_nat (failed_loads (List.concat (snd r))).
Proof.
  cbv zeta.
  destruct (session_clock cfg envs (init_state cfg x y mtime img) 0 eq_refl)
    as (A & B).
  now split.
Qed.

(** ** Keys *)

Lemma wrap_s32_back (x d : Z) :
  in_s32 x ->
  wrap_s32 (wrap_s32 (x - d) + d) = x /\ wrap_s32 (wrap_s32 (x + d) - d) = x.
Proof.
  intro Hx. split.
  - rewrite wrap_s32_add. rewrite <- (wrap_s32_id x Hx) at 2. f_equal. lia.
  - rewrite <- Z.add_opp_r, wrap_s32_add.
    rewrite <- (wrap_s32_id x Hx) at 2. f_equal. lia.
Qed.

(** X7.  Opposite keys undo each other.  After 'a' and then 'd' (or 'd' and
    then 'a'), and after 'w' and then 's' (or 's' and then 'w'), the state
    is what it was.  After '+' and then '-' it is what it was unless the step
    was 20, where '+' does nothing and '-' then leaves 10; after '-' and
    then '+' it is what it was unless the step was 1, where it ends at 5. *)
Theorem X7_opposite_keys (s : state)
        (Hx : in_s32 (xOffset s)) (Hy : in_s32 (yOffset s)) :
  fst (handle_key 100 (fst (handle_key 97 s))) = s
  /\ fst (handle_key 97 (fst (handle_key 100 s))) = s
  /\ fst (handle_key 115 (fst (handle_key 119 s))) = s
  /\ fst (handle_key 119 (fst (handle_key 115 s))) = s
  /\ (step s <> 20 -> fst (handle_key 45 (fst (handle_key 43 s))) = s)
  /\ (step s <> 1 -> fst (handle_key 43 (fst (handle_key 45 s))) = s)
  /\ (step s = 20 -> step (fst (handle_key 45 (fst (handle_key 43 s)))) = 10)
  /\ (step s = 1 -> step (fst (handle_key 43 (fst (handle_key 45 s)))) = 5).
Proof.
  rewrite !handle_key_fst.
  destruct s as [r l x y st ct lm lf im]. cbn in Hx, Hy.
  change (tolower 100) with 100. change (tolower 97) with 97.
  change (tolower 115) with 115. change (tolower 119) with 119.
  change (tolower 43) with 43. change (tolower 45) with 45.
  destruct (wrap_s32_back x st Hx) as (Bx1 & Bx2).
  destruct (wrap_s32_back y st Hy) as (By1 & By2).
  unfold switch_key. cbn [Z.eqb Pos.eqb fst].
  unfold set_xOffset, set_yOffset.
  cbn [xOffset yOffset step run reload currentTime lastModCheckTime
       lastFileMod image].
  rewrite Bx1, Bx2, By1, By2.
  repeat split.
  - intro N. cbn [step].
    destruct (Z.eqb_spec st 1) as [->|N1]; [reflexivity|].
    destruct (Z.eqb_spec st 5) as [->|N5]; [reflexivity|].
    destruct (Z.eqb_spec st 10) as [->|N10]; [reflexivity|].
    cbn [step].
    destruct (Z.eqb_spec st 20); [contradiction|].
    destruct (Z.eqb_spec st 10); [contradiction|].
    destruct (Z.eqb_spec st 5); [contradiction|]. reflexivity.
  - intro N. cbn [step].
    destruct (Z.eqb_spec st 20) as [->|N20]; [reflexivity|].
    destruct (Z.eqb_spec st 10) as [->|N10]; [reflexivity|].
    destruct (Z.eqb_spec st 5) as [->|N5]; [reflexivity|].
    cbn [step].
    destruct (Z.eqb_spec st 1); [contradiction|].
    destruct (Z.eqb_spec st 5); [contradiction|].
    destruct (Z.eqb_spec st 10); [contradiction|]. reflexivity.
  - cbn [step]. intros ->. reflexivity.
  - cbn [step]. intros ->. reflexivity.
Qed.

Lemma X7_opposite_keys_witness :
  in_s32 300
  /\ xOffset (fst (handle_key 97 (fst (handle_key 100
               (mkState true false 300 0 20 0 0 0 1)))))
     = 300.
Proof.
  assert (Hx : in_s32 300) by (unfold in_s32; lia).
  assert (Hy : in_s32 0) by (unfold in_s32; lia).
  split; [exact Hx|].
  destruct (X7_opposite_keys (mkState true false 300 0 20 0 0 0 1)
                             Hx Hy) as (_ & H & _).
  now rewrite H.
Defined.

Lemma switch_key_ignored (c : Z) (s : state) :
  edit_of_key c = None -> tolower c <> 27 ->
  switch_key (tolower c) s = (s, false).
Proof.
  unfold edit_of_key, switch_key. intros He Hn.
  apply Z.eqb_neq in Hn. rewrite Hn.
  destruct (tolower c =? 97); [discriminate|].
  destruct (tolower c =? 100); [discriminate|].
  destruct (tolower c =? 119); [discriminate|].
  destruct (tolower c =? 115); [discriminate|].
  destruct (tolower c =? 43); [discriminate|].
  destruct (tolower c =? 45); [discriminate|]. reflexivity.
Qed.

(** X8.  A character that is neither the escape nor one of a, d, w, s, +, -
    (in either case of the letters) is read and ignored: the iteration ends
    in the same state, after the same calls, as one in which [keyPressed]
    reports no key.  This includes the 0 that [c] holds when [keyPressed]
    returns true without storing a character. *)
Theorem X8_other_keys_are_ignored (cfg : config) (env : tick_env)
        (s : state) (c : Z)
        (He : edit_of_key c = None) (Hn : tolower c <> 27) :
  tick cfg (with_key (Some c) env) s = tick cfg (with_key None env) s.
Proof.
  unfold tick.
  change (check_file cfg (with_key (Some c) env) s)
    with (check_file cfg (with_key None env) s).
  destruct (check_file cfg (with_key None env) s) as [s1 t1].
  change (apply_reload cfg (with_key (Some c) env) s1)
    with (apply_reload cfg (with_key None env) s1).
  destruct (apply_reload cfg (with_key None env) s1) as [s2 t2].
  replace (apply_input cfg (with_key (Some c) env) s2)
    with (apply_input cfg (with_key None env) s2); [reflexivity|].
  unfold apply_input. cbn [keyboard with_key].
  destruct (interactive cfg); [|reflexivity].
  unfold handle_key. now rewrite (switch_key_ignored c s2 He Hn).
Qed.

Lemma X8_other_keys_are_ignored_witness :
  edit_of_key 0 = None /\ tolower 0 <> 27
  /\ tick (mkConfig 0 true false "image.png")
          (mkEnv [] [] None 0 None (Some 0))
          (init_state (mkConfig 0 true false "image.png") 0 0 0 1)
     = tick (mkConfig 0 true false "image.png")
            (mkEnv [] [] None 0 None None)
            (init_state (mkConfig 0 true false "image.png") 0 0 0 1).
Proof.
  assert (He : edit_of_key 0 = None) by reflexivity.
  assert (Hn : tolower 0 <> 27) by (vm_compute; discriminate).
  split; [exact He|]. split; [exact Hn|].
  exact (X8_other_keys_are_ignored
           (mkConfig 0 true false "image.png")
           (mkEnv [] [] None 0 None None)
           (init_state (mkConfig 0 true false "image.png") 0 0 0 1)
           0 He Hn).
Defined.

(** ** The modification time that the loop remembers *)

(** X9.  A check of the file that is due takes over the modification time
    it was given, whether the reload it may trigger succeeds or fails; so
    after it, a check that is given the same modification time again sees
    no change and asks for no reload: a file that could not be decoded is
    not tried again by the monitoring until its modification time changes
    once more. *)
Theorem X9_modification_time_is_taken_over (cfg : config) (env : tick_env)
        (s : state)
        (Hm : monitorChanges cfg = true) (Hdue : 1000 <= since_check s) :
  lastFileMod (fst (tick cfg env s)) = getFileModificationTime env
  /\ forall env' s',
       lastFileMod s' = lastFileMod (fst (tick cfg env s)) ->
       getFileModificationTime env' = getFileModificationTime env ->
       reload_seen cfg env' s' = reload s'.
Proof.
  assert (E : lastFileMod (fst (tick cfg env s)) = getFileModificationTime env).
  { destruct (tick_check_view cfg env s) as (_ & -> & _).
    unfold check_file. fold (since_check s).
    apply Z.leb_le in Hdue. rewrite Hm, Hdue. reflexivity. }
  split; [exact E|].
  intros env' s' Hs He. unfold reload_seen.
  rewrite Hs, E, He, Z.eqb_refl. cbn [negb].
  now rewrite andb_false_r, orb_false_r.
Qed.

Lemma X9_modification_time_is_taken_over_witness :
  monitorChanges (mkConfig 0 true true "image.png") = true
  /\ lastFileMod
       (fst (tick (mkConfig 0 true true "image.png")
                  (mkEnv [] [] (Some 7) 0 None None)
                  (mkState true false 0 0 1 1000 0 5 1)))
     = 7.
Proof.
  split; [reflexivity|].
  assert (Hdue : 1000 <= since_check (mkState true false 0 0 1 1000 0 5 1))
    by (vm_compute; discriminate).
  exact (proj1 (X9_modification_time_is_taken_over
                  (mkConfig 0 true true "image.png")
                  (mkEnv [] [] (Some 7) 0 None None)
                  (mkState true false 0 0 1 1000 0 5 1)
                  eq_refl Hdue)).
Defined.

(** * The command line *)

Lemma apply_option_accepted (opt n : Z) (o : options) :
  apply_option opt n o = None <-> accepted_option opt = false.
Proof.
  unfold apply_option, accepted_option. cbn [existsb].
  destruct (opt =? 98); [cbn; split; discriminate|].
  destruct (opt =? 100); [cbn; split; discriminate|].
  destruct (opt =? 108); [cbn; split; discriminate|].
  destruct (opt =? 120); [cbn; split; discriminate|].
  destruct (opt =? 121); [cbn; split; discriminate|].
  destruct (opt =? 116); [cbn; split; discriminate|].
  destruct (opt =? 110); [cbn; split; discriminate|].
  destruct (opt =? 109); [cbn; split; discriminate|].
  cbn. tauto.
Qed.

Lemma parse_options_accepts (items : list (Z * Z)) (o : options) :
  parse_options items o = None
  <-> forallb (fun it => accepted_option (fst it)) items = false.
Proof.
  revert o.
  induction items as [|[opt n] rest IH]; intro o;
    cbn [parse_options forallb fst].
  - split; discriminate.
  - destruct (apply_option opt n o) as [o'|] eqn:E.
    + assert (A : accepted_option opt = true).
      { destruct (accepted_option opt) eqn:A; [reflexivity|].
        apply (apply_option_accepted opt n o) in A. congruence. }
      rewrite A. cbn [andb]. apply IH.
    + apply apply_option_accepted in E. rewrite E. cbn. tauto.
Qed.

(** X10.  The options are accepted exactly when every character that
    [getopt] returns is one of b, d, l, x, y, t, n, m; a single other
    character (the '?' of an unknown option or of a missing argument), at
    any place, makes the program print its usage and exit with
    EXIT_FAILURE before anything is loaded, whatever the options before
    and after it, the file argument and the environment are. *)
Theorem X10_options_rejected (items : list (Z * Z)) :
  (parse_options items default_options = None
   <-> forallb (fun it => accepted_option (fst it)) items = false)
  /\ (forallb (fun it => accepted_option (fst it)) items = false ->
      forall file st envs,
        main items file st envs = (Exit EXIT_FAILURE, [CUsage])).
Proof.
  split; [apply parse_options_accepts|].
  intros H file st envs. apply parse_options_accepts with (o := default_options) in H.
  unfold main. now rewrite H.
Qed.

Lemma last_number_cons (opt c n : Z) (rest : list (Z * Z)) :
  last_number opt ((c, n) :: rest)
  = match last_number opt rest with
    | Some v => Some v
    | None => if c =? opt then Some n else None
    end.
Proof.
  unfold last_number. cbn [fold_left fst snd].
  generalize (if c =? opt then Some n else None) as acc.
  induction rest as [|[c' n'] rest IH]; intro acc; cbn [fold_left fst snd].
  - reflexivity.
  - rewrite IH. rewrite (IH (if c' =? opt then Some n' else None)).
    destruct (fold_left _ rest None); [reflexivity|].
    now destruct (c' =? opt).
Qed.

Lemma apply_option_fields (c n : Z) (o o1 : options) :
  apply_option c n o = Some o1 ->
  opt_background o1 = (if c =? 98 then n mod 2 ^ 16 else opt_background o)
  /\ opt_displayNumber o1
     = (if c =? 100 then wrap_u32 n else opt_displayNumber o)
  /\ opt_layer o1 = (if c =? 108 then wrap_s32 n else opt_layer o)
  /\ opt_xOffset o1 = (if c =? 120 then wrap_s32 n else opt_xOffset o)
  /\ opt_yOffset o1 = (if c =? 121 then wrap_s32 n else opt_yOffset o)
  /\ opt_timeout o1 = (if c =? 116 then wrap_u32 n else opt_timeout o)
  /\ opt_xOffsetSet o1 = (c =? 120) || opt_xOffsetSet o
  /\ opt_yOffsetSet o1 = (c =? 121) || opt_yOffsetSet o
  /\ opt_interactive o1 = negb (c =? 110) && opt_interactive o
  /\ opt_monitorChanges o1 = (c =? 109) || opt_monitorChanges o.
Proof.
  unfold apply_option.
  destruct (Z.eqb_spec c 98) as [->|?];
    [intro H; injection H as <-; cbn; auto 12|].
  destruct (Z.eqb_spec c 100) as [->|?];
    [intro H; injection H as <-; cbn; auto 12|].
  destruct (Z.eqb_spec c 108) as [->|?];
    [intro H; injection H as <-; cbn; auto 12|].
  destruct (Z.eqb_spec c 120) as [->|?];
    [intro H; injection H as <-; cbn; auto 12|].
  destruct (Z.eqb_spec c 121) as [->|?];
    [intro H; injection H as <-; cbn; auto 12|].
  destruct (Z.eqb_spec c 116) as [->|?];
    [intro H; injection H as <-; cbn; auto 12|].
  destruct (Z.eqb_spec c 110) as [->|?];
    [intro H; injection H as <-; cbn; auto 12|].
  destruct (Z.eqb_spec c 109) as [->|?];
    [intro H; injection H as <-; cbn; auto 12|].
  discriminate.
Qed.

Lemma parse_options_fields (items : list (Z * Z)) (o o' : options) :
  parse_options items o = Some o' ->
  opt_background o'
  = match last_number 98 items with
    | Some v => v mod 2 ^ 16 | None => opt_background o end
  /\ opt_displayNumber o'
     = match last_number 100 items with
       | Some v => wrap_u32 v | None => opt_displayNumber o end
  /\ opt_layer o'
     = match last_number 108 items with
       | Some v => wrap_s32 v | None => opt_layer o end
  /\ opt_xOffset o'
     = match last_number 120 items with
       | Some v => wrap_s32 v | None => opt_xOffset o end
  /\ opt_yOffset o'
     = match last_number 121 items with
       | Some v => wrap_s32 v | None => opt_yOffset o end
  /\ opt_timeout o'
     = match last_number 116 items with
       | Some v => wrap_u32 v | None => opt_timeout o end
  /\ opt_xOffsetSet o' = given 120 items || opt_xOffsetSet o
  /\ opt_yOffsetSet o' = given 121 items || opt_yOffsetSet o
  /\ opt_interactive o' = negb (given 110 items) && opt_interactive o
  /\ opt_monitorChanges o' = given 109 items || opt_monitorChanges o.
Proof.
  revert o. induction items as [|[c n] rest IH]; intros o H.
  - cbn in H. injection H as <-. cbn.
    repeat split; now destruct (opt_interactive o).
  - cbn [parse_options] in H.
    destruct (apply_option c n o) as [o1|] eqn:E; [|discriminate].
    destruct (apply_option_fields c n o o1 E)
      as (A1 & A2 & A3 & A4 & A5 & A6 & A7 & A8 & A9 & A10).
    destruct (IH o1 H) as (B1 & B2 & B3 & B4 & B5 & B6 & B7 & B8 & B9 & B10).
    rewrite !last_number_cons. unfold given in *. cbn [existsb fst].
    rewrite B1, B2, B3, B4, B5, B6, B7, B8, B9, B10.
    rewrite A1, A2, A3, A4, A5, A6, A7, A8, A9, A10.
    repeat split;
      try (match goal with
           | |- context [last_number ?k rest] =>
               destruct (last_number k rest);
               [reflexivity | destruct (c =? k); reflexivity]
           end).
    + rewrite orb_assoc. f_equal. apply orb_comm.
    + rewrite orb_assoc. f_equal. apply orb_comm.
    + rewrite negb_orb, andb_assoc. f_equal. apply andb_comm.
    + rewrite orb_assoc. f_equal. apply orb_comm.
Qed.

Lemma wrap_u32_range (z : Z) : 0 <= wrap_u32 z < 2 ^ 32.
Proof. unfold wrap_u32. apply Z.mod_pos_bound. lia. Qed.

(** X11.  The values that an accepted command line leaves.  Each numeric
    option has the number of its last occurrence, converted to the type of
    its variable, and its default when it does not occur (background
    0x000F, layer 1, display 0, offsets 0, timeout 0); interactivity is on
    exactly when [-n] does not occur and monitoring exactly when [-m]
    occurs, an offset counts as set exactly when its option occurs; and
    every value is within the range of its type. *)
Theorem X11_option_values (items : list (Z * Z)) (o : options)
        (H : parse_options items default_options = Some o) :
  opt_background o
  = match last_number 98 items with Some v => v mod 2 ^ 16 | None => 15 end
  /\ opt_displayNumber o
     = match last_number 100 items with Some v => wrap_u32 v | None => 0 end
  /\ opt_layer o
     = match last_number 108 items with Some v => wrap_s32 v | None => 1 end
  /\ opt_xOffset o
     = match last_number 120 items with Some v => wrap_s32 v | None => 0 end
  /\ opt_yOffset o
     = match last_number 121 items with Some v => wrap_s32 v | None => 0 end
  /\ opt_timeout o
     = match last_number 116 items with Some v => wrap_u32 v | None => 0 end
  /\ opt_xOffsetSet o = given 120 items
  /\ opt_yOffsetSet o = given 121 items
  /\ opt_interactive o = negb (given 110 items)
  /\ opt_monitorChanges o = given 109 items
  /\ 0 <= opt_background o < 2 ^ 16
  /\ 0 <= opt_displayNumber o < 2 ^ 32
  /\ 0 <= opt_timeout o < 2 ^ 32
  /\ in_s32 (opt_layer o) /\ in_s32 (opt_xOffset o) /\ in_s32 (opt_yOffset o).
Proof.
  destruct (parse_options_fields items default_options o H)
    as (B1 & B2 & B3 & B4 & B5 & B6 & B7 & B8 & B9 & B10).
  cbn [default_options opt_background opt_displayNumber opt_layer opt_xOffset
       opt_yOffset opt_timeout opt_xOffsetSet opt_yOffsetSet opt_interactive
       opt_monitorChanges] in *.
  rewrite orb_false_r in B7, B8, B10. rewrite andb_true_r in B9.
  assert (R1 : 0 <= opt_background o < 2 ^ 16).
  { rewrite B1. destruct (last_number 98 items);
      [apply Z.mod_pos_bound | ]; lia. }
  assert (R2 : 0 <= opt_displayNumber o < 2 ^ 32).
  { rewrite B2. destruct (last_number 100 items);
      [apply wrap_u32_range | lia]. }
  assert (R3 : 0 <= opt_timeout o < 2 ^ 32).
  { rewrite B6. destruct (last_number 116 items);
      [apply wrap_u32_range | lia]. }
  assert (R4 : in_s32 (opt_layer o)).
  { rewrite B3. destruct (last_number 108 items);
      [apply wrap_s32_range | unfold in_s32; lia]. }
  assert (R5 : in_s32 (opt_xOffset o)).
  { rewrite B4. destruct (last_number 120 items);
      [apply wrap_s32_range | unfold in_s32; lia]. }
  assert (R6 : in_s32 (opt_yOffset o)).
  { rewrite B5. destruct (last_number 121 items);
      [apply wrap_s32_range | unfold in_s32; lia]. }
  tauto.
Qed.

Lemma X11_option_values_witness :
  parse_options [(116, 50); (110, 0); (116, -1); (98, 65536)] default_options
  = Some (mkOptions 0 1 0 0 0 4294967295 false false false false)
  /\ opt_timeout (mkOptions 0 1 0 0 0 4294967295 false false false false)
     = 4294967295.
Proof.
  assert (H : parse_options [(116, 50); (110, 0); (116, -1); (98, 65536)]
                            default_options
              = Some (mkOptions 0 1 0 0 0 4294967295 false false false false))
    by reflexivity.
  split; [exact H|].
  destruct (X11_option_values _ _ H) as (_ & _ & _ & _ & _ & T & _).
  exact T.
Defined.

(** * The run of [main] *)

Lemma count_app (p : call -> bool) (l1 l2 : list call) :
  count p (l1 ++ l2) = (count p l1 + count p l2)%nat.
Proof. unfold count. now rewrite filter_app, length_app. Qed.

Lemma count_loops (p : call -> bool) (trs : list (list event)) :
  (forall tr, p (CLoop tr) = false) -> count p (map CLoop trs) = 0%nat.
Proof.
  intro H. unfold count.
  induction trs as [|tr trs IH]; cbn; [reflexivity|]. now rewrite H.
Qed.

Lemma loop_calls_app (l1 l2 : list call) :
  loop_calls (l1 ++ l2) = loop_calls l1 ++ loop_calls l2.
Proof. unfold loop_calls. apply flat_map_app. Qed.

Lemma loop_calls_loops (trs : list (list event)) :
  loop_calls (map CLoop trs) = trs.
Proof.
  unfold loop_calls. induction trs as [|tr trs IH]; cbn; [reflexivity|].
  now rewrite IH.
Qed.

(** The cases of a run of [main], in the order of the program. *)
Ltac main_cases :=
  unfold main;
  destruct (parse_options _ default_options) as [?o|] eqn:?Hparse;
    [|];
  try match goal with
      | |- context [match ?f with Some _ => _ | None => _ end] =>
          destruct f as [?path|] eqn:?Hfile
      end;
  try (destruct (startup_png _) as [[[?img ?w] ?h]|] eqn:?Hpng);
  cbv zeta;
  repeat match goal with
         | |- context [if signal_fails ?st ?sg then _ else _] =>
             destruct (signal_fails st sg) eqn:?Hsig
         end;
  repeat match goal with
         | |- context [if assert_fails ?st ?b then _ else _] =>
             destruct (assert_fails st b) eqn:?Hassert
         end;
  repeat match goal with
         | |- context [if run ?s then _ else _] =>
             destruct (run s) eqn:?Hrun
         end;
  repeat match goal with
         | |- context [if assert_fails ?st ?b then _ else _] =>
             destruct (assert_fails st b) eqn:?Hassert
         end;
  cbn [fst snd].

(** X12.  [main] exits with EXIT_FAILURE exactly when the options are
    rejected, no file argument is left, the image cannot be loaded, or a
    signal handler cannot be installed; in each of these cases nothing of
    the display has been touched.  The only other exit status is 0. *)
Theorem X12_exit_failure (items : list (Z * Z)) (file : option string)
        (st : startup_env) (envs : list tick_env) :
  let r := main items file st envs in
  (fst r = Exit EXIT_FAILURE
   <-> forallb (fun it => accepted_option (fst it)) items = false
       \/ file = None
       \/ startup_png st = None
       \/ existsb (signal_fails st) [SIGTSTP; SIGINT; SIGTERM] = true)
  /\ (fst r = Exit EXIT_FAILURE -> count display_call (snd r) = 0%nat)
  /\ (forall status, fst r = Exit status -> status = 0 \/ status = EXIT_FAILURE).
Proof.
  cbv zeta.
  pose proof (parse_options_accepts items default_options) as HP.
  split; [|split].
  - main_cases; cbn [existsb];
      rewrite ?Hsig, ?Hsig0, ?Hsig1; cbn [orb];
      split; intro H; try discriminate H; try reflexivity; try tauto;
      try (destruct H as [H | [H | [H | H]]];
           try discriminate H; apply HP in H; congruence).
  - main_cases; intro H; try discriminate H; try reflexivity;
      match goal with
      | |- context [String.eqb ?p "-"] =>
          destruct (String.eqb p "-"); reflexivity
      end.
  - main_cases; intros status H; try discriminate H;
      injection H as <-; auto.
Qed.

Ltac count_calls :=
  rewrite ?count_app, ?(count_loops is_init_background),
    ?(count_loops is_add_background), ?(count_loops is_destroy_background),
    ?(count_loops is_create_image), ?(count_loops is_destroy_image),
    ?(count_loops is_keyboard_reset) by reflexivity;
  repeat match goal with
         | |- context [String.eqb ?p "-"] => destruct (String.eqb p "-")
         | |- context [0 <? ?b] => destruct (0 <? b)
         end;
  cbn.

(** X13.  What [main] creates it destroys once, and nothing else.  In every
    run the image layer is created at most once and the background layer
    at most once, and neither is destroyed more often than it was created;
    in a run that returns 0, the image layer has been created once and
    destroyed once, the background layer has been created, added and
    destroyed once each when the background colour is not 0 and not at all
    when it is 0, and [keyboardReset] has been called once (with [-n] as
    well). *)
Theorem X13_layers_are_paired (items : list (Z * Z)) (file : option string)
        (st : startup_env) (envs : list tick_env) :
  let r := main items file st envs in
  (count is_destroy_image (snd r) <= count is_create_image (snd r) <= 1)%nat
  /\ (count is_destroy_background (snd r)
      <= count is_init_background (snd r) <= 1)%nat
  /\ (count is_add_background (snd r) <= count is_init_background (snd r))%nat
  /\ (fst r = Exit 0 ->
      count is_create_image (snd r) = 1%nat
      /\ count is_destroy_image (snd r) = 1%nat
      /\ count is_keyboard_reset (snd r) = 1%nat
      /\ count is_add_background (snd r) = count is_init_background (snd r)
      /\ count is_destroy_background (snd r)
         = count is_init_background (snd r)
      /\ forall o, parse_options items default_options = Some o ->
           count is_init_background (snd r)
           = if 0 <? opt_background o then 1%nat else 0%nat).
Proof.
  cbv zeta. split; [|split; [|split]].
  - main_cases; count_calls; lia.
  - main_cases; count_calls; lia.
  - main_cases; count_calls; lia.
  - main_cases; intro H; try discriminate H.
    repeat split.
    1-5: count_calls; lia.
    intros o' Ho. injection Ho as <-. count_calls; reflexivity.
Qed.


(** ** Where the image is put *)

Lemma centred_margins (extent size : Z) :
  0 <= size < 2 ^ 31 -> 0 <= extent < 2 ^ 31 ->
  (size <= extent ->
   0 <= centred extent size
   /\ 2 * centred extent size <= extent - size <= 2 * centred extent size + 1)
  /\ (extent < size ->
      centred extent size <= 0
      /\ 2 * centred extent size - 1 <= extent - size
         <= 2 * centred extent size).
Proof.
  intros Hs He. unfold centred.
  assert (R : in_s32 (extent - size)) by (unfold in_s32; lia).
  rewrite (wrap_s32_id _ R).
  split; intro H.
  - rewrite Z.quot_div_nonneg by lia.
    pose proof (Z.div_mod (extent - size) 2 ltac:(lia)) as D.
    pose proof (Z.mod_pos_bound (extent - size) 2 ltac:(lia)) as B.
    rewrite wrap_s32_id by (unfold in_s32; lia). lia.
  - replace (extent - size) with (- (size - extent)) by lia.
    rewrite Z.quot_opp_l by lia.
    rewrite Z.quot_div_nonneg by lia.
    pose proof (Z.div_mod (size - extent) 2 ltac:(lia)) as D.
    pose proof (Z.mod_pos_bound (size - extent) 2 ltac:(lia)) as B.
    rewrite wrap_s32_id by (unfold in_s32; lia). lia.
Qed.

Lemma not_in_loops (c : call) (trs : list (list event)) :
  In c (map CLoop trs) -> exists tr, c = CLoop tr.
Proof.
  intro H. apply in_map_iff in H. destruct H as (tr & <- & _). now exists tr.
Qed.

(** X14.  The offsets at which [main] puts the image.  An offset given by
    [-x] or [-y] is used as it is; one that is not given centres the image
    on the display: when the image is not larger than the display, the
    margin before it is not negative and the margin after it is the same
    or one pixel more; when it is larger, the offset is negative or 0 and
    the image sticks out by the same amount on both sides, or by one pixel
    more after it. *)
Theorem X14_offsets (items : list (Z * Z)) (file : option string)
        (st : startup_env) (envs : list tick_env)
        (o : options) (img w h x y : Z)
        (Hparse : parse_options items default_options = Some o)
        (Hpng : startup_png st = Some (img, w, h))
        (Hin : In (CAddElementImageLayerOffset x y)
                  (snd (main items file st envs))) :
  x = (if opt_xOffsetSet o then opt_xOffset o else centred (info_width st) w)
  /\ y = (if opt_yOffsetSet o then opt_yOffset o
          else centred (info_height st) h)
  /\ (opt_xOffsetSet o = false ->
      0 <= w < 2 ^ 31 -> 0 <= info_width st < 2 ^ 31 ->
      (w <= info_width st ->
       0 <= x /\ 2 * x <= info_width st - w <= 2 * x + 1)
      /\ (info_width st < w ->
          x <= 0 /\ 2 * x - 1 <= info_width st - w <= 2 * x))
  /\ (opt_yOffsetSet o = false ->
      0 <= h < 2 ^ 31 -> 0 <= info_height st < 2 ^ 31 ->
      (h <= info_height st ->
       0 <= y /\ 2 * y <= info_height st - h <= 2 * y + 1)
      /\ (info_height st < h ->
          y <= 0 /\ 2 * y - 1 <= info_height st - h <= 2 * y)).
Proof.
  assert (E : x = (if opt_xOffsetSet o then opt_xOffset o
                   else centred (info_width st) w)
              /\ y = (if opt_yOffsetSet o then opt_yOffset o
                      else centred (info_height st) h)).
  { revert Hin. unfold main. rewrite Hparse, Hpng.
    destruct file as [path|]; [|cbn; intuition discriminate].
    cbv zeta.
    repeat match goal with
           | |- context [if signal_fails ?s ?sg then _ else _] =>
               destruct (signal_fails s sg)
           | |- context [if assert_fails ?s ?b then _ else _] =>
               destruct (assert_fails s b)
           | |- context [if run ?s then _ else _] => destruct (run s)
           end;
      cbn [snd]; intro Hin;
      repeat (apply in_app_or in Hin; destruct Hin as [Hin | Hin]);
      try (apply not_in_loops in Hin; destruct Hin as (tr & Hin);
           discriminate Hin);
      repeat match type of Hin with
             | In _ (if ?b then _ else _) => destruct b
             | In _ (_ :: _) => destruct Hin as [Hin | Hin]
             | In _ [] => destruct Hin
             | (if ?b then _ else _) = _ => destruct b
             | _ = _ => first [discriminate Hin | injection Hin as <- <-]
             end;
      try (split; reflexivity). }
  destruct E as (Ex & Ey). split; [exact Ex|]. split; [exact Ey|].
  split.
  - intros Hset Hw HW. rewrite Hset in Ex. subst x.
    now apply centred_margins.
  - intros Hset Hh HH. rewrite Hset in Ey. subst y.
    now apply centred_margins.
Qed.

(** ** From the command line to the loop *)

Lemma session_not_interactive (cfg : config) (envs : list tick_env)
      (s : state) :
  interactive cfg = false ->
  Forall (fun tr => Forall (fun ev => input_event ev = false) tr
                    /\ moves tr = 0%nat)
         (snd (session cfg envs s)).
Proof.
  intro Hn. revert s. induction envs as [|env rest IH]; intro s; [constructor|].
  rewrite session_cons.
  destruct (run (deliver (signals env) s)); cbn [snd]; [|constructor].
  constructor; [|apply IH].
  destruct (tick_not_interactive cfg env (deliver (signals env) s) Hn)
    as (_ & _ & _ & F & _).
  split; [exact F | now apply moves_none].
Qed.

Lemma session_stdin (cfg : config) (envs : list tick_env) (s : state) :
  imagePath cfg = "-"%string ->
  Forall (fun tr => loads tr = 0%nat /\ content_swaps tr = 0%nat)
         (snd (session cfg envs s)).
Proof.
  intro Hp. revert s. induction envs as [|env rest IH]; intro s; [constructor|].
  rewrite session_cons.
  destruct (run (deliver (signals env) s)); cbn [snd]; [|constructor].
  constructor; [|apply IH].
  destruct (tick_stdin cfg env (deliver (signals env) s) Hp) as (_ & _ & L & C).
  now split.
Qed.

(** The iterations of the loop in a run of [main] are those of the session
    that the command line and the startup set up, if the run gets there. *)
Lemma main_loop_calls (items : list (Z * Z)) (file : option string)
      (st : startup_env) (envs : list tick_env) :
  loop_calls (snd (main items file st envs)) = []
  \/ exists o path x y mtime img,
       parse_options items default_options = Some o
       /\ file = Some path
       /\ loop_calls (snd (main items file st envs))
          = snd (session (mkConfig (opt_timeout o) (opt_interactive o)
                                   (opt_monitorChanges o) path)
                         envs
                         (init_state (mkConfig (opt_timeout o)
                                               (opt_interactive o)
                                               (opt_monitorChanges o) path)
                                     x y mtime img)).
Proof.
  main_cases;
    try (left; rewrite ?loop_calls_app;
         repeat match goal with
                | |- context [String.eqb ?p "-"] => destruct (String.eqb p "-")
                | |- context [0 <? ?b] => destruct (0 <? b)
                end; reflexivity);
    right; eexists o, path, _, _, _, _;
    (split; [reflexivity|]); (split; [reflexivity|]);
    rewrite ?loop_calls_app, loop_calls_loops;
    repeat match goal with
           | |- context [String.eqb ?p "-"] => destruct (String.eqb p "-") eqn:?
           | |- context [0 <? ?b] => destruct (0 <? b)
           end;
    cbn [loop_calls flat_map app]; rewrite ?app_nil_r; reflexivity.
Qed.

(** X15.  With [-n] anywhere on the command line, no iteration of the loop
    of a run calls [keyPressed] or starts, fills or submits an update for a
    move of the layer, whatever keys are pressed. *)
Theorem X15_no_keyboard_with_n (items : list (Z * Z))
        (file : option string) (st : startup_env) (envs : list tick_env)
        (Hn : given 110 items = true) :
  Forall (fun tr => Forall (fun ev => input_event ev = false) tr
                    /\ moves tr = 0%nat)
         (loop_calls (snd (main items file st envs))).
Proof.
  destruct (main_loop_calls items file st envs)
    as [-> | (o & path & x & y & mtime & img & Hparse & _ & ->)];
    [constructor|].
  apply session_not_interactive. cbn [interactive].
  destruct (parse_options_fields items default_options o Hparse)
    as (_ & _ & _ & _ & _ & _ & _ & _ & I & _).
  rewrite I, Hn. reflexivity.
Qed.

(** X16.  With "-" as the file argument the image is read from standard
    input, at most once: the run never calls [loadPng] on a path and never
    queries a modification time at startup, and no iteration of its loop
    attempts a decode or swaps the content. *)
Theorem X16_standard_input (items : list (Z * Z)) (st : startup_env)
        (envs : list tick_env) :
  let r := main items (Some "-"%string) st envs in
  count is_load_path (snd r) = 0%nat
  /\ count is_stat (snd r) = 0%nat
  /\ (count is_load_stdin (snd r) <= 1)%nat
  /\ Forall (fun tr => loads tr = 0%nat /\ content_swaps tr = 0%nat)
            (loop_calls (snd r)).
Proof.
  cbv zeta.
  assert (G : forall file, file = Some "-"%string ->
              count is_load_path (snd (main items file st envs)) = 0%nat
              /\ count is_stat (snd (main items file st envs)) = 0%nat
              /\ (count is_load_stdin (snd (main items file st envs)) <= 1)%nat).
  { intros file Hf.
    split; [|split]; main_cases; try discriminate Hf;
      try (injection Hf as ->);
      rewrite ?count_app, ?(count_loops is_load_path),
        ?(count_loops is_stat), ?(count_loops is_load_stdin) by reflexivity;
      repeat match goal with
             | |- context [0 <? ?b] => destruct (0 <? b)
             end; cbn; lia. }
  destruct (G _ eq_refl) as (G1 & G2 & G3).
  repeat split; try assumption.
  destruct (main_loop_calls items (Some "-"%string) st envs)
    as [-> | (o & path & x & y & mtime & img & _ & Hfile & ->)];
    [constructor|].
  injection Hfile as <-. now apply session_stdin.
Qed.

(** ** The theorems of the run at concrete runs *)

Lemma X14_offsets_witness :
  parse_options [(121, 7)] default_options
  = Some (mkOptions 15 1 0 0 7 0 false true true false)
  /\ In (CAddElementImageLayerOffset 910 7)
        (snd (main [(121, 7)] (Some "image.png"%string)
                   (mkStartup false (Some (1, 100, 50)) (Some 0) 0
                              (fun _ => false) 1 0 1920 1080 1 0 0)
                   []))
  /\ 910 = centred 1920 100.
Proof.
  assert (Hp : parse_options [(121, 7)] default_options
               = Some (mkOptions 15 1 0 0 7 0 false true true false))
    by reflexivity.
  assert (Hin : In (CAddElementImageLayerOffset 910 7)
                   (snd (main [(121, 7)] (Some "image.png"%string)
                              (mkStartup false (Some (1, 100, 50)) (Some 0) 0
                                         (fun _ => false) 1 0 1920 1080 1 0 0)
                              [])))
    by (vm_compute; auto 20).
  split; [exact Hp|]. split; [exact Hin|].
  exact (proj1 (X14_offsets [(121, 7)] (Some "image.png"%string)
                  (mkStartup false (Some (1, 100, 50)) (Some 0) 0
                             (fun _ => false) 1 0 1920 1080 1 0 0)
                  [] _ 1 100 50 910 7 Hp eq_refl Hin)).
Defined.

Lemma X15_no_keyboard_with_n_witness :
  given 110 [(116, 20); (110, 0)] = true
  /\ Forall (fun tr => Forall (fun ev => input_event ev = false) tr
                       /\ moves tr = 0%nat)
            (loop_calls
               (snd (main [(116, 20); (110, 0)] (Some "image.png"%string)
                          (mkStartup false (Some (1, 100, 50)) (Some 0) 0
                                     (fun _ => false) 1 0 1920 1080 1 0 0)
                          (repeat (mkEnv [] [] None 0 None (Some 100)) 3)))).
Proof.
  split; [reflexivity|].
  exact (X15_no_keyboard_with_n [(116, 20); (110, 0)]
           (Some "image.png"%string)
           (mkStartup false (Some (1, 100, 50)) (Some 0) 0
                      (fun _ => false) 1 0 1920 1080 1 0 0)
           (repeat (mkEnv [] [] None 0 None (Some 100)) 3) eq_refl).
Defined.

(** A whole run: [-t 20 -b 0], a reload by signal in the first iteration,
    and the timeout after the second. *)
Example main_run :
  main [(116, 20); (98, 0)] (Some "image.png"%string)
       (mkStartup false (Some (1, 100, 50)) (Some 0) 0
                  (fun _ => false) 1 0 1920 1080 1 0 0)
       [mkEnv [SIGTSTP] [] None 0 (Some 2) None;
        mkEnv [] [] None 0 None (Some 97);
        mkEnv [] [] None 0 None None]
  = (Exit 0,
     [CLoadPng "image.png"; CStat "image.png";
      CSignal SIGTSTP; CSignal SIGINT; CSignal SIGTERM;
      CBcmHostInit; CDisplayOpen 0; CDisplayGetInfo;
      CCreateResourceImageLayer 1; CUpdateStart;
      CAddElementImageLayerOffset 910 515; CUpdateSubmitSync;
      CLoop [EvLoadPng "image.png" true; EvChangeSourceAndUpdateImageLayer 2;
             EvKeyPressed; EvUsleep 10000];
      CLoop [EvKeyPressed; EvUpdateStart; EvMoveImageLayer 909 515;
             EvUpdateSubmitSync; EvUsleep 10000];
      CKeyboardReset; CDestroyImageLayer; CDisplayClose]).
Proof. reflexivity. Qed.

(** * How a session ends *)

Lemma session_full_or_stopped (cfg : config) (envs : list tick_env)
      (s : state) :
  (iterations cfg envs s <= List.length envs)%nat
  /\ (iterations cfg envs s = List.length envs
      \/ run (fst (session cfg envs s)) = false).
Proof.
  unfold iterations. revert s.
  induction envs as [|env rest IH]; intro s; [cbn; auto|].
  rewrite session_cons.
  destruct (run (deliver (signals env) s)) eqn:R; cbn [fst snd List.length].
  - destruct (IH (fst (tick cfg env (deliver (signals env) s)))) as (A & B).
    split; [lia|]. destruct B as [B | B]; [left; lia | now right].
  - split; [lia | now right].
Qed.

Lemma session_prefix_stopped (cfg : config) (l1 l2 : list tick_env)
      (s : state) :
  run (fst (session cfg l1 s)) = false ->
  run (fst (session cfg (l1 ++ l2) s)) = false
  /\ iterations cfg (l1 ++ l2) s = iterations cfg l1 s.
Proof.
  unfold iterations. revert s.
  induction l1 as [|env rest IH]; intros s H.
  - cbn in H. cbn [app]. destruct (session_stopped cfg l2 s H) as (A & B).
    unfold iterations in B. now rewrite A, B.
  - cbn [app]. rewrite !session_cons. rewrite session_cons in H.
    destruct (run (deliver (signals env) s)) eqn:R; cbn [fst snd List.length] in *.
    + destruct (IH _ H) as (A & B). now rewrite A, B.
    + now split.
Qed.

Lemma session_stop_signal (cfg : config) (l1 l2 : list tick_env)
      (env : tick_env) (s : state) :
  existsb stop_signal (signals env) = true ->
  run (fst (session cfg (l1 ++ env :: l2) s)) = false
  /\ (iterations cfg (l1 ++ env :: l2) s <= List.length l1)%nat.
Proof.
  intro H.
  destruct (session_full_or_stopped cfg l1 s) as (Hle & [Hfull | Hstop]).
  - destruct (session_app cfg l1 (env :: l2) s Hfull) as (A & B).
    rewrite A, B. unfold iterations. rewrite session_cons.
    rewrite deliver_flags. cbn [run]. rewrite H, andb_false_r.
    cbn. split; [reflexivity | lia].
  - destruct (session_prefix_stopped cfg l1 (env :: l2) s Hstop) as (A & B).
    rewrite A, B. now split.
Qed.

Lemma session_escape (cfg : config) (l1 l2 : list tick_env)
      (env : tick_env) (s : state) :
  interactive cfg = true -> escape_key env = true ->
  run (fst (session cfg (l1 ++ env :: l2) s)) = false
  /\ (iterations cfg (l1 ++ env :: l2) s <= S (List.length l1))%nat.
Proof.
  intros Hi He.
  destruct (session_full_or_stopped cfg l1 s) as (Hle & [Hfull | Hstop]).
  - destruct (session_app cfg l1 (env :: l2) s Hfull) as (A & B).
    rewrite A, B. unfold iterations. rewrite session_cons.
    destruct (run (deliver (signals env) (fst (session cfg l1 s)))) eqn:R;
      cbn [fst snd List.length]; [|split; [exact R | lia]].
    assert (R1 : run (fst (tick cfg env
                             (deliver (signals env) (fst (session cfg l1 s)))))
                 = false).
    { rewrite tick_run_exact, Hi, He. cbn. now rewrite !andb_false_r. }
    destruct (session_stopped cfg l2 _ R1) as (C & D).
    unfold iterations in D. rewrite C, D. split; [reflexivity | lia].
  - destruct (session_prefix_stopped cfg l1 (env :: l2) s Hstop) as (A & B).
    rewrite A, B. split; [reflexivity | lia].
Qed.

Lemma session_timeout_bound (cfg : config) (envs : list tick_env)
      (s : state) (k n : nat) :
  currentTime s = elapsed k -> (k < n)%nat ->
  0 < timeout cfg -> timeout cfg <= elapsed n ->
  (n - k <= List.length envs)%nat ->
  run (fst (session cfg envs s)) = false
  /\ (iterations cfg envs s <= n - k)%nat.
Proof.
  unfold iterations. intros Ht Hk Hpos Hn. revert s k Ht Hk.
  induction envs as [|env rest IH]; intros s k Ht Hk Hlen;
    [cbn in Hlen; lia|].
  rewrite session_cons.
  destruct (deliver_frame (signals env) s) as (_ & _ & _ & _ & T0).
  set (s0 := deliver (signals env) s) in *.
  destruct (run s0) eqn:R; cbn [fst snd List.length];
    [|split; [exact R | lia]].
  pose proof (tick_time cfg env s0) as T1.
  rewrite T0, Ht, elapsed_succ in T1.
  destruct (Nat.eq_dec (S k) n) as [E | N].
  - assert (R1 : run (fst (tick cfg env s0)) = false).
    { rewrite tick_run_exact. unfold timeout_fires.
      rewrite T0, Ht, elapsed_succ, E.
      apply Z.leb_le in Hn. rewrite Hn.
      destruct (Z.eqb_spec (timeout cfg) 0); [lia|].
      cbn. now rewrite !andb_false_r. }
    destruct (session_stopped cfg rest _ R1) as (C & D).
    unfold iterations in D. rewrite C, D. split; [reflexivity | lia].
  - destruct (IH (fst (tick cfg env s0)) (S k) T1 ltac:(lia)) as (C & D).
    { cbn [List.length] in Hlen. lia. }
    split; [exact C | lia].
Qed.

(** X17.  A timeout ends the loop whatever else happens.  With a timeout
    of [T] ms between 1 and 4294967290, a session that is given at least
    [ceil (T / 10)] iterations leaves the loop after at most that many,
    for every sequence of signals, keys, file changes and decode results. *)
Theorem X17_timeout_bound (cfg : config) (envs : list tick_env)
        (x y mtime img : Z)
        (HT : 0 < timeout cfg <= 4294967290)
        (Hlen : (Z.to_nat ((timeout cfg + 9) / 10) <= List.length envs)%nat) :
  run (fst (session cfg envs (init_state cfg x y mtime img))) = false
  /\ (iterations cfg envs (init_state cfg x y mtime img)
      <= Z.to_nat ((timeout cfg + 9) / 10))%nat.
Proof.
  destruct (first_timeout_exists (timeout cfg) HT) as ((Hn & Hge & _) & _).
  destruct (session_timeout_bound cfg envs (init_state cfg x y mtime img) 0
              (Z.to_nat ((timeout cfg + 9) / 10)) eq_refl)
    as (A & B); try lia.
  split; [exact A | lia].
Qed.

(** X18.  A stop signal or an escape ends the loop.  When SIGINT or SIGTERM
    is among the signals handled before an iteration, that iteration and
    all later ones do not run; when the escape character is read in an
    iteration (with interactivity on), that iteration is completed and is
    the last.  In both cases [run] is false when the session is left. *)
Theorem X18_stop_requests (cfg : config) (l1 l2 : list tick_env)
        (env : tick_env) (s : state) :
  (existsb stop_signal (signals env) = true ->
   run (fst (session cfg (l1 ++ env :: l2) s)) = false
   /\ (iterations cfg (l1 ++ env :: l2) s <= List.length l1)%nat)
  /\ (interactive cfg = true -> escape_key env = true ->
      run (fst (session cfg (l1 ++ env :: l2) s)) = false
      /\ (iterations cfg (l1 ++ env :: l2) s <= S (List.length l1))%nat).
Proof.
  split; [apply session_stop_signal | apply session_escape].
Qed.




Lemma X17_timeout_bound_witness :
  0 < timeout (mkConfig 50 true true "image.png") <= 4294967290
  /\ run (fst (session (mkConfig 50 true true "image.png")
                       (repeat (mkEnv [SIGTSTP] [SIGTSTP] (Some 3) 0 None
                                      (Some 100)) 8)
                       (init_state (mkConfig 50 true true "image.png")
                                   0 0 0 1)))
     = false.
Proof.
  assert (HT : 0 < timeout (mkConfig 50 true true "image.png") <= 4294967290)
    by (cbn; lia).
  split; [exact HT|].
  refine (proj1 (X17_timeout_bound
                   (mkConfig 50 true true "image.png")
                   (repeat (mkEnv [SIGTSTP] [SIGTSTP] (Some 3) 0 None
                                  (Some 100)) 8)
                   0 0 0 1 HT _)).
  vm_compute. lia.
Defined.

